(** * flipada.py: the Streamlit basketball detection demo

    A shallow embedding of [src/flipada.py] and the properties of its
    credential check, its asset fetcher and its frame pipeline.

    Conventions of the embedding.
    - A Python [str] is a Rocq [string] holding its UTF-8 bytes, so that
      [str.encode()] is the list of the string's bytes.
    - A Python [int] is a [Z]. A Python [float] is a rational, a [Q]: a
      literal is the decimal the source writes. A value held by a tensor is
      the number it holds (every finite float is a rational), NaN or an
      infinity.
    - A call that may raise returns a [result]: [Ok v] or [Err e].
    - The operating system, the Hugging Face hub, the video decoder and the
      detection model are outside the repository; they are modelled by the
      state they expose to this program: a file system as a finite map from
      paths to files and symbolic links, together with what it refuses to
      move, the hub as a finite map from (repository, filename) to
      artifacts, a capture handle as the list of frames it has yet to decode,
      a model as a transition function on an internal state. *)

From Stdlib Require Import ZArith QArith List Bool Lia.
From Stdlib Require Import Strings.String Strings.Ascii Strings.Byte DecimalString.
From stdpp Require Import base option list gmap strings.

Import ListNotations.
Local Open Scope string_scope.
Local Open Scope list_scope.
Local Open Scope Z_scope.

(** ** Python values and exceptions *)

Inductive Exn : Type :=
| TypeError (msg : string)
| AttributeError (msg : string)
| KeyError (key : Z + string)
| FileNotFoundError (path : string)
| HfHubError (repo_id filename : string)
| InferenceError (msg : string)
| ValueError (msg : string)
| OverflowError (msg : string)
| Cv2Error (msg : string)
| OSError (msg : string).

Inductive result (A : Type) : Type :=
| Ok (v : A)
| Err (e : Exn).
Arguments Ok {A} v.
Arguments Err {A} e.

Definition is_ok {A} (r : result A) : bool :=
  match r with Ok _ => true | Err _ => false end.

(** Truth value of a [str]: only the empty string is falsy. *)
Definition truthy (s : string) : bool :=
  match s with EmptyString => false | String _ _ => true end.

(** ** hashlib.sha256 (FIPS 180-4), on bytes, with 32-bit words as [Z] *)

Module Sha256.

Definition w32 (x : Z) : Z := x mod 2 ^ 32.
Definition add32 (x y : Z) : Z := w32 (x + y).
Definition rotr (n x : Z) : Z :=
  Z.lor (Z.shiftr x n) (w32 (Z.shiftl x (32 - n))).
Definition shr (n x : Z) : Z := Z.shiftr x n.

Definition Ch (x y z : Z) : Z :=
  Z.lxor (Z.land x y) (Z.land (Z.lnot x) z).
Definition Maj (x y z : Z) : Z :=
  Z.lxor (Z.lxor (Z.land x y) (Z.land x z)) (Z.land y z).
Definition Sigma0 (x : Z) : Z := Z.lxor (Z.lxor (rotr 2 x) (rotr 13 x)) (rotr 22 x).
Definition Sigma1 (x : Z) : Z := Z.lxor (Z.lxor (rotr 6 x) (rotr 11 x)) (rotr 25 x).
Definition sigma0 (x : Z) : Z := Z.lxor (Z.lxor (rotr 7 x) (rotr 18 x)) (shr 3 x).
Definition sigma1 (x : Z) : Z := Z.lxor (Z.lxor (rotr 17 x) (rotr 19 x)) (shr 10 x).

(** The constants of the standard are the first 32 bits of the fractional
    parts of the cube roots (round constants) and square roots (initial hash
    value) of the first primes: floor (root k (p * 2^(32 k))) mod 2^32. *)
Definition is_prime (n : Z) : bool :=
  forallb (fun d => negb (n mod d =? 0)) (map Z.of_nat (seq 2 (Z.to_nat n - 2))).

(** The 64 primes up to 311. *)
Definition primes : list Z := List.filter is_prime (map Z.of_nat (seq 2 310)).

(** The largest [r + x] with [x < 2 ^ bits] and [(r + x) ^ k <= n], one bit
    at a time from the top. *)
Fixpoint int_root (k : Z) (bits : nat) (n r : Z) : Z :=
  match bits with
  | O => r
  | S b =>
      let r' := r + 2 ^ Z.of_nat b in
      if r' ^ k <=? n then int_root k b n r' else int_root k b n r
  end.

Definition frac_root (k p : Z) : Z := w32 (int_root k 40 (p * 2 ^ (32 * k)) 0).

Definition K : list Z := Eval vm_compute in map (frac_root 3) primes.

Definition H0 : list Z := Eval vm_compute in map (frac_root 2) (firstn 8 primes).

Definition byte_val (b : byte) : Z := Z.of_N (Byte.to_N b).

(** Big-endian bytes of [x], most significant first, [n] of them. *)
Fixpoint be_bytes (n : nat) (x : Z) : list Z :=
  match n with
  | O => []
  | S n' => Z.land (Z.shiftr x (8 * Z.of_nat n')) 255 :: be_bytes n' x
  end.

(** Message, the byte 0x80, zeros up to 56 mod 64, the bit length on 8 bytes. *)
Definition pad (msg : list Z) : list Z :=
  let len := Z.of_nat (length msg) in
  let zeros := Z.to_nat ((55 - len) mod 64) in
  msg ++ [128] ++ repeat 0 zeros ++ be_bytes 8 (8 * len).

Fixpoint be_word (bs : list Z) (acc : Z) : Z :=
  match bs with
  | [] => acc
  | b :: bs' => be_word bs' (Z.lor (Z.shiftl acc 8) b)
  end.

(** Cut a byte list into big-endian 32-bit words. *)
Fixpoint words_of (bs : list Z) : list Z :=
  match bs with
  | b0 :: b1 :: b2 :: b3 :: rest => be_word [b0; b1; b2; b3] 0 :: words_of rest
  | _ => []
  end.

(** The message schedule: 16 block words extended to 64. *)
Fixpoint schedule (n : nat) (w : list Z) : list Z :=
  match n with
  | O => w
  | S n' =>
      let t := length w in
      let at_ (k : nat) := nth (t - k) w 0 in
      schedule n'
        (w ++ [add32 (add32 (sigma1 (at_ 2%nat)) (at_ 7%nat))
                     (add32 (sigma0 (at_ 15%nat)) (at_ 16%nat))])
  end.

Record regs : Type := Regs { ra : Z; rb : Z; rc : Z; rd : Z; re : Z; rf : Z; rg : Z; rh : Z }.

Definition round (s : regs) (kw : Z * Z) : regs :=
  let '(k, w) := kw in
  let t1 := add32 (add32 (add32 (rh s) (Sigma1 (re s))) (Ch (re s) (rf s) (rg s)))
                  (add32 k w) in
  let t2 := add32 (Sigma0 (ra s)) (Maj (ra s) (rb s) (rc s)) in
  Regs (add32 t1 t2) (ra s) (rb s) (rc s) (add32 (rd s) t1) (re s) (rf s) (rg s).

Definition regs_of (h : list Z) : regs :=
  Regs (nth 0 h 0) (nth 1 h 0) (nth 2 h 0) (nth 3 h 0)
       (nth 4 h 0) (nth 5 h 0) (nth 6 h 0) (nth 7 h 0).

Definition regs_list (s : regs) : list Z :=
  [ra s; rb s; rc s; rd s; re s; rf s; rg s; rh s].

Definition compress (h : list Z) (block : list Z) : list Z :=
  let w := schedule 48 block in
  let s := fold_left round (combine K w) (regs_of h) in
  map (fun p => add32 (fst p) (snd p)) (combine h (regs_list s)).

(** The first [n] blocks of 16 words, compressed one after the other. *)
Fixpoint blocks (n : nat) (ws : list Z) (h : list Z) : list Z :=
  match n with
  | O => h
  | S n' => blocks n' (skipn 16 ws) (compress h (firstn 16 ws))
  end.

Definition digest_words (msg : list byte) : list Z :=
  let ws := words_of (pad (map byte_val msg)) in
  blocks (length ws / 16) ws H0.

Definition hex_digit (d : Z) : ascii :=
  if Z.ltb d 10 then ascii_of_N (Z.to_N (48 + d)) else ascii_of_N (Z.to_N (87 + d)).

Fixpoint hex_word (n : nat) (x : Z) : string :=
  match n with
  | O => EmptyString
  | S n' => String (hex_digit (Z.land (Z.shiftr x (4 * Z.of_nat n')) 15)) (hex_word n' x)
  end.

(** [hashlib.sha256(msg).hexdigest()]: 64 lower-case hexadecimal digits. *)
Definition hexdigest (msg : list byte) : string :=
  fold_right (fun w acc => (hex_word 8 w ++ acc)%string) EmptyString (digest_words msg).

End Sha256.

(** ** The credential store (flipada.py, lines 47-58) *)

(** [password.encode()]: the UTF-8 bytes of the password. *)
Definition str_encode (s : string) : list byte := list_byte_of_string s.

(** [hash_password]: the digest is taken over the bytes of the password and
    nothing else. *)
Definition hash_password (password : string) : string :=
  Sha256.hexdigest (str_encode password).

Definition USERS : gmap string string :=
  {[ "demo" := hash_password "yolo2024" ]}.

(** [username in USERS and USERS[username] == hash_password(password)];
    [and] evaluates its right operand only when the left one is true, so the
    subscript never raises. *)
Definition authenticate (username password : string) : bool :=
  match USERS !! username with
  | Some stored => String.eqb stored (hash_password password)
  | None => false
  end.


(** ** Images, as far as this program observes them

    A raster is known by its dimensions, by which decoded picture it shows
    ([picture], an opaque identity of the pixel content) and by the overlays
    drawn on it so far, oldest first. *)

Inductive Font : Type := FONT_HERSHEY_SIMPLEX.

Inductive DrawOp : Type :=
| Rectangle (pt1 pt2 : Z * Z) (color : Z * Z * Z) (thickness : Z)
| PutText (text : string) (org : Z * Z) (fontFace : Font) (fontScale : Q)
          (color : Z * Z * Z) (thickness : Z).

Record Image : Type := mkImage {
  width : Z;
  height : Z;
  picture : N;
  overlay : list DrawOp
}.

Definition shape (img : Image) : Z * Z := (width img, height img).

(** [cv2.resize(frame, size)] with [size = (width, height)]: a new raster of
    that size showing the same picture. *)
Definition cv2_resize (frame : Image) (size : Z * Z) : Image :=
  mkImage (fst size) (snd size) (picture frame) (overlay frame).

(** Drawing mutates the raster in place: the same image, more overlays. *)
Definition draw (img : Image) (ops : list DrawOp) : Image :=
  mkImage (width img) (height img) (picture img) (overlay img ++ ops).

(** A Python [int] that the binding can pass as a C [int]. *)
Definition c_int (z : Z) : bool := (- 2 ^ 31 <=? z) && (z <? 2 ^ 31).

Definition c_point (pt : Z * Z) : bool := c_int (fst pt) && c_int (snd pt).

(** [cv2.rectangle] and [cv2.putText]: a point with a coordinate that does
    not fit a C [int] is refused with [cv2.error]; a point outside the image
    is clipped, not refused. *)
Definition cv2_rectangle (img : Image) (pt1 pt2 : Z * Z) (color : Z * Z * Z)
    (thickness : Z) : result Image :=
  if c_point pt1 && c_point pt2
  then Ok (draw img [Rectangle pt1 pt2 color thickness])
  else Err (Cv2Error "rectangle").

Definition cv2_putText (img : Image) (text : string) (org : Z * Z) (fontFace : Font)
    (fontScale : Q) (color : Z * Z * Z) (thickness : Z) : result Image :=
  if c_point org
  then Ok (draw img [PutText text org fontFace fontScale color thickness])
  else Err (Cv2Error "putText").

(** ** Paths (posixpath) *)

Definition starts_with_slash (s : string) : bool :=
  match s with String c _ => Ascii.eqb c "/" | EmptyString => false end.

Fixpoint ends_with_slash (s : string) : bool :=
  match s with
  | EmptyString => false
  | String c EmptyString => Ascii.eqb c "/"
  | String _ s' => ends_with_slash s'
  end.

(** [os.path.join(a, b)] (posixpath, two components). *)
Definition os_path_join (a b : string) : string :=
  if starts_with_slash b then b
  else if String.eqb a "" || ends_with_slash a then (a ++ b)%string
  else (a ++ "/" ++ b)%string.

Definition is_slash (c : ascii) : bool := Ascii.eqb c "/".

Fixpoint drop_while (p : ascii -> bool) (cs : list ascii) : list ascii :=
  match cs with
  | c :: cs' => if p c then drop_while p cs' else cs
  | [] => []
  end.

(** [os.path.dirname]: what stands before the last slash, without the
    slashes that end it unless it is made of slashes only. *)
Definition os_path_dirname (path : string) : string :=
  let head := drop_while (fun c => negb (is_slash c)) (rev (list_ascii_of_string path)) in
  match drop_while is_slash head with
  | [] => string_of_list_ascii (rev head)
  | stripped => string_of_list_ascii (rev stripped)
  end.

(** The components of a path, the empty ones included. *)
Fixpoint split_path (s : string) (part : string) : list string :=
  match s with
  | EmptyString => [part]
  | String c s' =>
      if is_slash c then part :: split_path s' EmptyString
      else split_path s' (part ++ String c EmptyString)%string
  end.

(** One pass over the components with the ones kept so far, last first:
    empty ones and [.] are dropped, [..] removes the one before it, stays at
    the root, and is kept where a relative path has nothing left to remove. *)
Fixpoint norm_parts (absolute : bool) (parts kept : list string) : list string :=
  match parts with
  | [] => rev kept
  | part :: parts' =>
      if String.eqb part "" || String.eqb part "." then norm_parts absolute parts' kept
      else if String.eqb part ".." then
        match kept with
        | top :: below =>
            if String.eqb top ".." then norm_parts absolute parts' (part :: kept)
            else norm_parts absolute parts' below
        | [] =>
            if absolute then norm_parts absolute parts' []
            else norm_parts absolute parts' [part]
        end
      else norm_parts absolute parts' (part :: kept)
  end.

Fixpoint join_parts (parts : list string) : string :=
  match parts with
  | [] => EmptyString
  | [part] => part
  | part :: parts' => (part ++ "/" ++ join_parts parts')%string
  end.

(** [os.path.normpath] (one leading slash). *)
Definition os_path_normpath (path : string) : string :=
  let absolute := starts_with_slash path in
  let body := join_parts (norm_parts absolute (split_path path EmptyString) []) in
  if absolute then ("/" ++ body)%string
  else if String.eqb body "" then "." else body.

(** ** Files, the file system and the hub (flipada.py, lines 17-41) *)

(** What a path holds: a video, any other regular file, or a symbolic
    link with the path it points to. *)
Inductive FileData : Type :=
| VideoFile (frames : list Image)
| DataFile (content : list byte)
| Symlink (target : string).

(** Where a link at [link] with target [target] leads: a relative target
    is taken from the directory of the link. *)
Definition link_destination (link target : string) : string :=
  os_path_normpath (os_path_join (os_path_dirname link) target).

(** What opening [path] reaches, following links (at most 40 of them, as the
    kernel does): nothing for a missing path, a dangling link or a loop. *)
Fixpoint follow (hops : nat) (files : gmap string FileData) (path : string)
    : option FileData :=
  match files !! path with
  | Some (Symlink target) =>
      match hops with
      | O => None
      | S hops' => follow hops' files (link_destination path target)
      end
  | found => found
  end.

Definition MAXSYMLINKS : nat := 40.

Inductive Msg : Type :=
| StInfo (text : string)
| StSuccess (text : string).

(** The world [descargar_archivo_hf] acts on.
    - [fs]: what each local path holds.
    - [hub]: the remote store, which this program never writes.
    - [hf_cache], [hf_writes]: the path [hf_hub_download] returns for an
      artifact, and the cache entries it writes when it fetches it. Where
      links are supported these are a blob, a relative link to it (the path
      returned) and a ref; elsewhere the file itself.
    - [rename_error]: what the file system has against a move between two
      paths that are there to be moved: a destination directory that is
      missing, another device, permissions.
    - [downloads]: the artifacts [hf_hub_download] was asked for and
      delivered, in order; [ui]: the fetcher's messages. *)
Record OS : Type := mkOS {
  fs : gmap string FileData;
  hub : gmap (string * string) FileData;
  hf_cache : string -> string -> string;
  hf_writes : string -> string -> FileData -> list (string * FileData);
  rename_error : string -> string -> option Exn;
  downloads : list (string * string);
  ui : list Msg
}.

Definition set_fs (w : OS) (fs' : gmap string FileData) : OS :=
  mkOS fs' (hub w) (hf_cache w) (hf_writes w) (rename_error w) (downloads w) (ui w).

Definition st_show (w : OS) (m : Msg) : OS :=
  mkOS (fs w) (hub w) (hf_cache w) (hf_writes w) (rename_error w) (downloads w)
       (ui w ++ [m]).

(** [os.path.exists]: whether opening the path reaches a file. The empty
    path names none, and a link that dangles does not exist. *)
Definition os_path_exists (w : OS) (path : string) : bool :=
  if String.eqb path "" then false
  else match follow MAXSYMLINKS (fs w) path with Some _ => true | None => false end.

(** [os.rename(src, dst)]: moves what [src] holds, a link as a link, over
    whatever [dst] holds. An empty or missing path is ENOENT; otherwise the
    move fails when the file system refuses it. *)
Definition os_rename (w : OS) (src dst : string) : result unit * OS :=
  if String.eqb src "" then (Err (FileNotFoundError src), w)
  else if String.eqb dst "" then (Err (FileNotFoundError dst), w)
  else match fs w !! src with
       | None => (Err (FileNotFoundError src), w)
       | Some data =>
           match rename_error w src dst with
           | Some e => (Err e, w)
           | None => (Ok tt, set_fs w (<[dst := data]> (delete src (fs w))))
           end
       end.

(** The file system with some entries written, the later over the earlier. *)
Fixpoint write_all (entries : list (string * FileData)) (files : gmap string FileData)
    : gmap string FileData :=
  match entries with
  | [] => files
  | (path, data) :: entries' => write_all entries' (<[path := data]> files)
  end.

(** [hf_hub_download(repo_id=..., filename=...)]: fetches the artifact into
    the hub cache and returns its path there, or raises when the hub does not
    serve it (absent, unauthorised, unreachable). *)
Definition hf_hub_download (w : OS) (repo_id filename : string) : result string * OS :=
  match hub w !! (repo_id, filename) with
  | None => (Err (HfHubError repo_id filename), w)
  | Some data =>
      let archivo_path := hf_cache w repo_id filename in
      (Ok archivo_path,
       mkOS (write_all (hf_writes w repo_id filename data) (fs w))
            (hub w) (hf_cache w) (hf_writes w) (rename_error w)
            (downloads w ++ [(repo_id, filename)]) (ui w))
  end.

Definition descargar_archivo_hf (w : OS) (repo_id filename save_path : string)
    : result string * OS :=
  if negb (os_path_exists w save_path) then
    let w := st_show w (StInfo ("Descargando " ++ filename ++ " desde Hugging Face...")%string) in
    match hf_hub_download w repo_id filename with
    | (Err e, w) => (Err e, w)
    | (Ok archivo_path, w) =>
        match os_rename w archivo_path save_path with
        | (Err e, w) => (Err e, w)
        | (Ok _, w) =>
            let w := st_show w (StSuccess (filename ++ " descargado correctamente!")%string) in
            (Ok save_path, w)
        end
    end
  else (Ok save_path, w).

Definition HF_REPO_ID : string := "Marxx01/yolo_basket".

(** A [dict] literal, in insertion order. *)
Definition MODELOS_HF : list (string * string) :=
  [ ("YOLOv11m", "best_yolo11m.pt");
    ("YOLOv11n", "best_yolo11n.pt");
    ("YOLOv5n6u", "best_YOLOv5n6u.pt");
    ("YOLOv8m", "best_yolov8m.pt");
    ("YOLOv8x", "best_yolov8x.pt") ].

Definition VIDEOS_HF : list (string * string) :=
  [ ("Video 1", "modelo_test_video.mp4");
    ("Video 2", "modelo_train_video.mp4") ].

Fixpoint dict_get (d : list (string * string)) (key : string) : result string :=
  match d with
  | [] => Err (KeyError (inr key))
  | (k, v) :: d' => if String.eqb k key then Ok v else dict_get d' key
  end.

(** What [main] does with the selected model (lines 117-124): the path it
    hands to [YOLO(...)], or the early [return] of the [else] branch, or the
    exception that left [main]. *)
Inductive ModelStep : Type :=
| LoadModel (modelo_path : string)
| EarlyReturn
| Raised (e : Exn).

Definition main_model_step (w : OS) (modelo_seleccionado : string) : ModelStep * OS :=
  match dict_get MODELOS_HF modelo_seleccionado with
  | Err e => (Raised e, w)
  | Ok filename =>
      match descargar_archivo_hf w HF_REPO_ID filename (os_path_join "models" filename) with
      | (Err e, w) => (Raised e, w)
      | (Ok modelo_path, w) =>
          if truthy modelo_path then (LoadModel modelo_path, w) else (EarlyReturn, w)
      end
  end.

(** ** Detections and formatting *)

(** One element of [r.boxes]: the tensors [box.xyxy[0]], [box.conf[0]] and
    [box.cls[0]], as the numbers they hold. *)
(** A value of a tensor of floats: a number, NaN or an infinity. *)
Inductive PyFloat : Type :=
| Finite (q : Q)
| NaN
| Infinity (negative : bool).

Record Box : Type := mkBox {
  xyxy : PyFloat * PyFloat * PyFloat * PyFloat;
  conf : PyFloat;
  cls : PyFloat
}.

Record Results : Type := mkResults { boxes : list Box }.

Definition and_then {A B} (r : result A) (f : A -> result B) : result B :=
  match r with Ok a => f a | Err e => Err e end.

Notation "x <~ r ;; k" := (and_then r (fun x => k))
  (at level 100, r at next level, right associativity).

(** [int(x)] on a finite float: truncation towards zero. *)
Definition py_int (x : Q) : Z := Z.quot (Qnum x) (Zpos (Qden x)).

(** [int(x)] on any float: NaN and the infinities have no integer. *)
Definition float_int (x : PyFloat) : result Z :=
  match x with
  | Finite q => Ok (py_int q)
  | NaN => Err (ValueError "cannot convert float NaN to integer")
  | Infinity _ => Err (OverflowError "cannot convert float infinity to integer")
  end.

Definition two_digits (n : Z) : string :=
  String (ascii_of_N (Z.to_N (48 + n / 10)))
         (String (ascii_of_N (Z.to_N (48 + n mod 10))) EmptyString).

(** [f"{x:.2f}"]: the exact value rounded to hundredths, ties to even, with
    the sign of [x]. *)
Definition format_2f (x : Q) : string :=
  let n := Qnum x in
  let d := Zpos (Qden x) in
  let a := Z.abs n * 100 in
  let k := a / d in
  let r := a mod d in
  let k := if Z.ltb d (2 * r) || (Z.eqb (2 * r) d && Z.odd k) then k + 1 else k in
  ((if Z.ltb n 0 then "-" else "")
     ++ NilZero.string_of_uint (N.to_uint (Z.to_N (k / 100)))
     ++ "." ++ two_digits (k mod 100))%string.

Definition float_format_2f (x : PyFloat) : string :=
  match x with
  | Finite q => format_2f q
  | NaN => "nan"
  | Infinity negative => if negative then "-inf" else "inf"
  end.

(** What the pipeline does to the outside, in order. [EvOpen] records
    whether the capture could be opened, [EvRead] whether a frame came,
    [EvInfer] the image and threshold handed to the model and what came
    back. *)
Inductive Event : Type :=
| EvOpen (path : string) (opened : bool)
| EvRead (success : bool)
| EvInfer (frame : Image) (conf : Q) (outcome : result (list Results))
| EvRelease.

Definition is_open (ev : Event) : bool :=
  match ev with EvOpen _ _ => true | _ => false end.
Definition is_read (ev : Event) : bool :=
  match ev with EvRead _ => true | _ => false end.
Definition is_infer (ev : Event) : bool :=
  match ev with EvInfer _ _ _ => true | _ => false end.
Definition is_release (ev : Event) : bool :=
  match ev with EvRelease => true | _ => false end.

Definition count (p : Event -> bool) (tr : list Event) : nat :=
  length (List.filter p tr).

(** [cv2.VideoCapture(path)]: the handle is open when the path holds a video
    the decoder accepts; it then yields, one by one, the frames it can decode
    before its first failed read. *)
Record VideoCapture : Type := mkCapture {
  opened : bool;
  pending : list Image
}.

Definition cv2_VideoCapture (files : gmap string FileData) (path : string) : VideoCapture :=
  match follow MAXSYMLINKS files path with
  | Some (VideoFile frames) => mkCapture true frames
  | _ => mkCapture false []
  end.

(** The frames a capture on [path] can decode: none when it cannot open. *)
Definition decodable (files : gmap string FileData) (path : string) : list Image :=
  pending (cv2_VideoCapture files path).

(** ** The frame pipeline (flipada.py, lines 60-94) *)

Section Pipeline.

Context {MState : Type}.

(** A loaded [ultralytics.YOLO]: the weights file it was built from, its
    [names] dict, and [__call__] as a transition on the object's internal
    state. The class does not define [__eq__]. *)
Record YOLO : Type := mkYOLO {
  ckpt_path : string;
  names : gmap Z string;
  predict : MState -> Image -> Q -> result (list Results) * MState
}.

(** What [process_video] may receive as [model]. *)
Inductive PyVal : Type :=
| PyStr (s : string)
| PyYOLO (m : YOLO).

(** [model == s] for a [str] literal [s]: equality of strings; an object
    without [__eq__] is equal only to itself, never to a string. *)
Definition py_eq_str (v : PyVal) (s : string) : bool :=
  match v with
  | PyStr s' => String.eqb s' s
  | PyYOLO _ => false
  end.

(** Computations of the pipeline: they read and update the model's state,
    emit events, and return or raise. An exception cuts the rest short. *)
Definition M (A : Type) : Type := MState -> result A * MState * list Event.

Definition ret {A} (a : A) : M A := fun st => (Ok a, st, []).
Definition raise {A} (e : Exn) : M A := fun st => (Err e, st, []).
Definition emit (ev : Event) : M unit := fun st => (Ok tt, st, [ev]).
Definition bind {A B} (m : M A) (f : A -> M B) : M B :=
  fun st =>
    match m st with
    | (Ok a, st1, tr1) =>
        match f a st1 with
        | (r, st2, tr2) => (r, st2, tr1 ++ tr2)
        end
    | (Err e, st1, tr1) => (Err e, st1, tr1)
    end.
Definition lift {A} (r : result A) : M A :=
  match r with Ok a => ret a | Err e => raise e end.

Notation "x <- m ;; k" := (bind m (fun x => k))
  (at level 100, m at next level, right associativity).
Notation "m ;;; k" := (bind m (fun _ => k))
  (at level 100, right associativity).

(** [model(frame, stream=True, conf=conf)], with the results it yields. *)
Definition py_call (model : PyVal) (frame : Image) (conf : Q) : M (list Results) :=
  fun st =>
    let '(outcome, st') :=
      match model with
      | PyStr _ => (Err (TypeError "'str' object is not callable"), st)
      | PyYOLO m => predict m st frame conf
      end in
    (outcome, st', [EvInfer frame conf outcome]).

(** [model.names[cls]] *)
Definition py_names (model : PyVal) (cls : Z) : result string :=
  match model with
  | PyStr _ => Err (AttributeError "'str' object has no attribute 'names'")
  | PyYOLO m =>
      match names m !! cls with
      | Some class_name => Ok class_name
      | None => Err (KeyError (inl cls))
      end
  end.

Definition conf_threshold : Q := 3 # 10.
Definition overlay_color : Z * Z * Z := (0, 255, 0).

(** Body of [for box in boxes] (lines 81-88). *)
Definition draw_box (model : PyVal) (frame : Image) (box : Box) : result Image :=
  let '(x1, y1, x2, y2) := xyxy box in
  x1 <~ float_int x1 ;;
  y1 <~ float_int y1 ;;
  x2 <~ float_int x2 ;;
  y2 <~ float_int y2 ;;
  let conf := conf box in
  cls <~ float_int (cls box) ;;
  class_name <~ py_names model cls ;;
  frame <~ cv2_rectangle frame (x1, y1) (x2, y2) overlay_color 2 ;;
  let label := (class_name ++ " " ++ float_format_2f conf)%string in
  cv2_putText frame label (x1, y1 - 10) FONT_HERSHEY_SIMPLEX (1 # 2) overlay_color 2.

Fixpoint draw_boxes (model : PyVal) (frame : Image) (bs : list Box) : result Image :=
  match bs with
  | [] => Ok frame
  | box :: bs' =>
      match draw_box model frame box with
      | Err e => Err e
      | Ok frame => draw_boxes model frame bs'
      end
  end.

(** [for r in results: for box in r.boxes: ...] (lines 78-88). *)
Fixpoint draw_results (model : PyVal) (frame : Image) (results : list Results)
    : result Image :=
  match results with
  | [] => Ok frame
  | r :: results' =>
      match draw_boxes model frame (boxes r) with
      | Err e => Err e
      | Ok frame => draw_results model frame results'
      end
  end.

(** Lines 62-65: the frame size, from the comparison of [model] with the
    name of one weights file. *)
Definition select_size (model : PyVal) : Z * Z :=
  if py_eq_str model "best_YOLOv5n6u.pt" then (1280, 1280) else (640, 360).

(** What one iteration does with the frame it read (lines 75-88). *)
Definition process_frame (model : PyVal) (size : Z * Z) (frame : Image) : M Image :=
  let frame := cv2_resize frame size in
  results <- py_call model frame conf_threshold ;;
  lift (draw_results model frame results).

(** The [while] loop (lines 70-91). [cap.read()] takes the head of the
    frames still pending; the recursion is on them. *)
Fixpoint frame_loop (model : PyVal) (size : Z * Z) (max_frames : Z)
    (cap_opened : bool) (cap_pending : list Image)
    (frame_count : Z) (processed_frames : list Image) : M (list Image) :=
  if cap_opened && Z.ltb frame_count max_frames then
    match cap_pending with
    | [] =>
        emit (EvRead false) ;;;
        ret processed_frames
    | frame :: cap_pending =>
        emit (EvRead true) ;;;
        frame <- process_frame model size frame ;;
        frame_loop model size max_frames cap_opened cap_pending
                   (frame_count + 1) (processed_frames ++ [frame])
    end
  else ret processed_frames.

Definition process_video (files : gmap string FileData) (video_path : string)
    (model : PyVal) (max_frames : Z) : M (list Image) :=
  let size := select_size model in
  let cap := cv2_VideoCapture files video_path in
  emit (EvOpen video_path (opened cap)) ;;;
  processed_frames <- frame_loop model size max_frames (opened cap) (pending cap) 0 [] ;;
  emit EvRelease ;;;
  ret processed_frames.

(** [max_frames=100] when the caller gives none, as [main] does (line 138). *)
Definition process_video_default (files : gmap string FileData) (video_path : string)
    (model : PyVal) : M (list Image) :=
  process_video files video_path model 100.

End Pipeline.

Arguments YOLO : clear implicits.
Arguments PyVal : clear implicits.
Arguments M : clear implicits.

(** ** The page (flipada.py, lines 96-149)

    Streamlit runs [main] from the top on every interaction. One run sees
    the session state, what the widgets return in that run, and the world;
    it shows elements, may change the session and the files, and ends by
    returning, by asking for a rerun, or by an exception nobody caught. *)

(** What the widgets return in one run. A button is true only in the run
    its click caused; [file_uploader] returns [None] until a file is given,
    then an object with a [name]. *)
Record Widgets : Type := mkWidgets {
  w_username : string;
  w_password : string;
  w_login : bool;
  w_model : string;
  w_source : string;
  w_video : string;
  w_upload : option string;
  w_process : bool;
  w_logout : bool
}.

(** What [main] itself shows (the fetcher's own messages are in [ui]).
    [UiProcessError e] is [st.error(f"Error al procesar video: {e}")];
    [UiImageRGB frame] is [st.image] of [frame] converted from BGR to RGB. *)
Inductive Ui : Type :=
| UiTitle (text : string)
| UiHeader (text : string)
| UiSidebarHeader (text : string)
| UiSuccess (text : string)
| UiSidebarSuccess (text : string)
| UiError (text : string)
| UiProcessError (e : Exn)
| UiWarning (text : string)
| UiImageRGB (frame : Image).

Inductive Exit : Type :=
| Return
| Rerun
| Uncaught (e : Exn).

Record Run : Type := mkRun {
  exit : Exit;
  session : gmap string bool;
  world : OS;
  shown : list Ui;
  events : list Event
}.

Section Page.

Context {MState : Type}.

(** [YOLO(modelo_path)]: the constructor of the detection library, which
    reads the weights file; it gives the model object and the state it
    starts in, or raises. *)
Variable YOLO_load : gmap string FileData -> string -> result (YOLO MState * MState).

(** Lines 135-145: the button "Procesar Video". *)
Definition main_process (w : OS) (wd : Widgets) (model : YOLO MState) (st : MState)
    (video_path : option string) (out : list Ui) : list Ui * list Event :=
  if w_process wd then
    match video_path with
    | Some video_path =>
        match process_video_default (fs w) video_path (PyYOLO model) st with
        | (Ok processed_frames, _, tr) =>
            (out ++ [UiHeader ("Frames Procesados - " ++ w_model wd)%string]
                 ++ map UiImageRGB processed_frames, tr)
        | (Err e, _, tr) => (out ++ [UiProcessError e], tr)
        end
    | None => (out ++ [UiWarning "Por favor, selecciona un video"], [])
    end
  else (out, []).

(** Lines 147-149: the button "Cerrar Sesión". *)
Definition main_logout (ss : gmap string bool) (wd : Widgets) (w : OS)
    (out : list Ui) (tr : list Event) : Run :=
  if w_logout wd then mkRun Rerun (<["logged_in" := false]> ss) w out tr
  else mkRun Return ss w out tr.

(** Lines 126-133: where the video comes from. The uploaded file is not
    saved: only its name is kept. *)
Definition main_video (w : OS) (wd : Widgets) : result (option string) * OS :=
  if String.eqb (w_source wd) "Video de Carpeta" then
    match dict_get VIDEOS_HF (w_video wd) with
    | Err e => (Err e, w)
    | Ok filename =>
        match descargar_archivo_hf w HF_REPO_ID filename (os_path_join "videos" filename) with
        | (Err e, w) => (Err e, w)
        | (Ok video_path, w) => (Ok (Some video_path), w)
        end
    end
  else
    match w_upload wd with
    | None => (Err (AttributeError "'NoneType' object has no attribute 'name'"), w)
    | Some name => (Ok (Some name), w)
    end.

Definition main (ss : gmap string bool) (wd : Widgets) (w : OS) : Run :=
  let out := [UiTitle "🏀 Basketball YOLO Detection"] in
  let ss :=
    match ss !! "logged_in" with
    | None => <["logged_in" := false]> ss
    | Some _ => ss
    end in
  if negb (default false (ss !! "logged_in")) then
    let out := out ++ [UiHeader "Login"] in
    if w_login wd then
      if authenticate (w_username wd) (w_password wd) then
        mkRun Return (<["logged_in" := true]> ss) w
              (out ++ [UiSuccess "Inicio de sesión exitoso"]) []
      else mkRun Return ss w (out ++ [UiError "Credenciales incorrectas"]) []
    else mkRun Return ss w out []
  else
    let out := out ++ [UiSidebarHeader "Configuración de Detección"] in
    match main_model_step w (w_model wd) with
    | (Raised e, w) => mkRun (Uncaught e) ss w out []
    | (EarlyReturn, w) => mkRun Return ss w out []
    | (LoadModel modelo_path, w) =>
        match YOLO_load (fs w) modelo_path with
        | Err e => mkRun (Uncaught e) ss w out []
        | Ok (model, st) =>
            let out :=
              out ++ [UiSidebarSuccess
                        ("Modelo " ++ w_model wd ++ " cargado correctamente")%string] in
            match main_video w wd with
            | (Err e, w) => mkRun (Uncaught e) ss w out []
            | (Ok video_path, w) =>
                let '(out, tr) := main_process w wd model st video_path out in
                main_logout ss wd w out tr
            end
        end
    end.

End Page.

(** ** Vocabulary of the statements *)

(** All the boxes a call of the model returned, in the order the two [for]
    loops visit them. *)
Definition detections (results : list Results) : list Box :=
  flat_map boxes results.

(** The two overlays of one detection: the rectangle on the box's corners
    and, ten pixels above its top-left corner, the label: the class name, a
    space, the confidence with two decimals. Both in green, thickness 2. *)
Definition box_overlay (class_name : string) (x1 y1 x2 y2 : Z) (confidence : PyFloat)
    : list DrawOp :=
  [ Rectangle (x1, y1) (x2, y2) (0, 255, 0) 2;
    PutText (class_name ++ " " ++ float_format_2f confidence)%string
            (x1, y1 - 10) FONT_HERSHEY_SIMPLEX (1 # 2) (0, 255, 0) 2 ].

(** What drawing one box comes to: its two overlays, or the exception of the
    first step that fails, in this order: a corner or the class index that is
    not a number, a class index without a name, a corner of the rectangle
    and then the place of the label outside the C integers. *)
Definition box_outcome (class_names : gmap Z string) (box : Box) : result (list DrawOp) :=
  let '(a, b, c, d) := xyxy box in
  x1 <~ float_int a ;;
  y1 <~ float_int b ;;
  x2 <~ float_int c ;;
  y2 <~ float_int d ;;
  k <~ float_int (cls box) ;;
  match class_names !! k with
  | None => Err (KeyError (inl k))
  | Some class_name =>
      if negb (c_point (x1, y1) && c_point (x2, y2)) then Err (Cv2Error "rectangle")
      else if negb (c_point (x1, y1 - 10)) then Err (Cv2Error "putText")
      else Ok (box_overlay class_name x1 y1 x2 y2 (conf box))
  end.

(** A box that can be drawn. *)
Definition drawable (class_names : gmap Z string) (box : Box) : Prop :=
  is_ok (box_outcome class_names box) = true.

(** The overlays of a list of boxes, in order, when every one can be drawn;
    else the exception of the first that cannot. *)
Fixpoint overlays_of (class_names : gmap Z string) (bs : list Box)
    : result (list DrawOp) :=
  match bs with
  | [] => Ok []
  | box :: bs' =>
      ops <~ box_outcome class_names box ;;
      rest <~ overlays_of class_names bs' ;;
      Ok (ops ++ rest)
  end.

(** The calls of the model a trace records: frame, threshold, outcome. *)
Definition inferences (tr : list Event) : list (Image * Q * result (list Results)) :=
  flat_map (fun ev => match ev with EvInfer f c o => [(f, c, o)] | _ => [] end) tr.

(** A read that gave a frame, and one that did not. *)
Definition is_frame_read (ev : Event) : bool :=
  match ev with EvRead true => true | _ => false end.
Definition is_failed_read (ev : Event) : bool :=
  match ev with EvRead false => true | _ => false end.

(** What an iteration that reaches the model does to the outside: it reads a
    frame, then calls the model. *)
Definition read_and_call (call : Image * Q * result (list Results)) : list Event :=
  let '(frame, c, outcome) := call in [EvRead true; EvInfer frame c outcome].

(** The exceptions of a box that cannot be drawn. *)
Definition drawing_error (e : Exn) : Prop :=
  match e with
  | ValueError _ | OverflowError _ | KeyError (inl _) | Cv2Error _ => True
  | _ => False
  end.

Definition is_rectangle (op : DrawOp) : bool :=
  match op with Rectangle _ _ _ _ => true | PutText _ _ _ _ _ _ => false end.

(** Detections shown on an image: one rectangle each. *)
Definition detection_count (img : Image) : nat :=
  length (List.filter is_rectangle (overlay img)).

(** An outcome with one more image in front, when it is a result. *)
Definition with_image (img : Image) (r : result (list Image)) : result (list Image) :=
  match r with Ok out => Ok (img :: out) | Err e => Err e end.

(** The images an outcome adds to the ones the loop had. *)
Definition after (processed : list Image) (r : result (list Image))
    : result (list Image) :=
  match r with Ok new => Ok (processed ++ new) | Err e => Err e end.

(** What a run of the loop over the frames [raws] is to be, from the state
    [st] of the model: for each frame in turn the model is called on the
    frame resized to [size] with the threshold 0.3, from the state the call
    before left; the image kept is the resized frame with the overlays of
    every box the call returned, none filtered out. The run stops at the
    first call that raises and at the first box that cannot be drawn, with
    that exception. The last three arguments are the outcome, the state the
    model is left in, and the calls made: image, threshold, what came back. *)
Inductive pipeline_run {MState} (m : YOLO MState) (size : Z * Z)
    : MState -> list Image -> result (list Image) -> MState
      -> list (Image * Q * result (list Results)) -> Prop :=
| run_end st :
    pipeline_run m size st [] (Ok []) st []
| run_frame st raw raws results st1 ops r st' calls :
    predict m st (cv2_resize raw size) (3 # 10) = (Ok results, st1) ->
    overlays_of (names m) (detections results) = Ok ops ->
    pipeline_run m size st1 raws r st' calls ->
    pipeline_run m size st (raw :: raws)
      (with_image (draw (cv2_resize raw size) ops) r) st'
      ((cv2_resize raw size, 3 # 10, Ok results) :: calls)
| run_model_raises st raw raws e st1 :
    predict m st (cv2_resize raw size) (3 # 10) = (Err e, st1) ->
    pipeline_run m size st (raw :: raws) (Err e) st1
      [(cv2_resize raw size, 3 # 10, Err e)]
| run_draw_raises st raw raws results st1 e :
    predict m st (cv2_resize raw size) (3 # 10) = (Ok results, st1) ->
    overlays_of (names m) (detections results) = Err e ->
    pipeline_run m size st (raw :: raws) (Err e) st1
      [(cv2_resize raw size, 3 # 10, Ok results)].

(** What the loop may do to the outside while it runs over the frames
    [pend]: read, and call the model with the threshold 0.3 on one of these
    frames resized to [size]. It neither opens nor releases the capture. *)
Definition loop_event (size : Z * Z) (pend : list Image) (ev : Event) : Prop :=
  match ev with
  | EvOpen _ _ => False
  | EvRelease => False
  | EvRead _ => True
  | EvInfer frame c _ => c = 3 # 10 /\ exists raw, In raw pend /\ frame = cv2_resize raw size
  end.

Definition frame_dimensions (r : result (list Image)) : list (Z * Z) :=
  match r with Ok out => map shape out | Err _ => [] end.

Definition detection_counts (r : result (list Image)) : list nat :=
  match r with Ok out => map detection_count out | Err _ => [] end.

(** A model whose calls never raise and whose boxes can all be drawn: their
    corners are numbers within the C integers and their class has a name. *)
Definition well_behaved {MState} (m : YOLO MState) : Prop :=
  forall st img c, exists results st',
    predict m st img c = (Ok results, st') /\
    Forall (drawable (names m)) (detections results).

(** A model whose answer depends on the image and the threshold only, not on
    what it has been called with before. A [str] has no state. *)
Definition deterministic {MState} (model : PyVal MState) : Prop :=
  match model with
  | PyStr _ => True
  | PyYOLO m => forall st1 st2 img c, fst (predict m st1 img c) = fst (predict m st2 img c)
  end.

(** The world after [n] more calls of the fetcher with the same arguments. *)
Fixpoint fetch_again (n : nat) (w : OS) (repo_id filename save_path : string) : OS :=
  match n with
  | O => w
  | S n' =>
      fetch_again n' (snd (descargar_archivo_hf w repo_id filename save_path))
                  repo_id filename save_path
  end.

(** From the spec's words ("a salted/hashed secret"): a stored secret is
    salted when some salt entered the digest, so that it is not the digest of
    the password alone. *)
Definition salted_secret (stored password : string) : Prop :=
  stored <> Sha256.hexdigest (str_encode password).

(** How a call of the model makes an iteration raise [e]: the call raised
    [e] itself, or it returned a box that cannot be drawn, the first such box
    giving [e]: a [ValueError] or [OverflowError] for a corner or class index
    that is not a number, a [KeyError] for a class index without a name, a
    [cv2.error] for a corner outside the C integers. *)
Definition caused_by {MState} (m : YOLO MState) (outcome : result (list Results))
    (e : Exn) : Prop :=
  outcome = Err e \/
  exists results pre box post,
    outcome = Ok results /\
    detections results = pre ++ box :: post /\
    Forall (drawable (names m)) pre /\
    box_outcome (names m) box = Err e.

Definition is_image (u : Ui) : bool :=
  match u with UiImageRGB _ => true | _ => false end.

(** The images a run shows, in order. *)
Definition images_shown (us : list Ui) : list Image :=
  flat_map (fun u => match u with UiImageRGB frame => [frame] | _ => [] end) us.

(** A digit of a lower-case hexadecimal numeral: 0-9 or a-f. *)
Definition is_lower_hex (c : ascii) : bool :=
  let n := N_of_ascii c in
  ((48 <=? n) && (n <=? 57) || (97 <=? n) && (n <=? 102))%N.

Fixpoint string_forall (p : ascii -> bool) (s : string) : bool :=
  match s with
  | EmptyString => true
  | String c s' => p c && string_forall p s'
  end.

(** ** Concrete inputs used by the examples below *)

Module Demo.

Definition raw (i : N) : Image := mkImage 1920 1080 i [].

Definition ball : Box :=
  mkBox (Finite (10 # 1), Finite (10 # 1), Finite (50 # 1), Finite (50 # 1))
        (Finite (9 # 10)) (Finite (0 # 1)).

(** A stub that finds one ball on every frame and counts its calls. *)
Definition stub (weights : string) : YOLO nat :=
  mkYOLO weights {[ 0 := "ball" ]} (fun st _ _ => (Ok [mkResults [ball]], S st)).

(** [YOLO("models/best_YOLOv5n6u.pt")], as [main] builds it when the user
    selects YOLOv5n6u. *)
Definition yolov5 : YOLO nat := stub "models/best_YOLOv5n6u.pt".

(** A stub whose second call raises. *)
Definition flaky : YOLO nat :=
  mkYOLO "models/best_yolov8m.pt" {[ 0 := "ball" ]}
    (fun st _ _ =>
       if Nat.eqb st 1 then (Err (InferenceError "size mismatch"), S st)
       else (Ok [mkResults [ball]], S st)).

(** A stub whose answer changes with each call: not deterministic. *)
Definition moody : YOLO nat :=
  mkYOLO "models/best_yolov8m.pt" {[ 0 := "ball" ]}
    (fun st _ _ => (Ok [mkResults (repeat ball st)], S st)).

Definition video : string := "videos/modelo_test_video.mp4".

Definition files : gmap string FileData :=
  {[ video := VideoFile [raw 0; raw 1; raw 2];
     "videos/empty.mp4" := VideoFile [];
     "videos/notes.txt" := DataFile [] ]}.

Definition os0 : OS :=
  mkOS files
       {[ (HF_REPO_ID, "best_YOLOv5n6u.pt") := DataFile [];
          (HF_REPO_ID, "modelo_test_video.mp4") := VideoFile [raw 0; raw 1; raw 2] ]}
       (fun repo_id filename => ("hub/" ++ repo_id ++ "/" ++ filename)%string)
       (fun repo_id filename data =>
          [(("hub/" ++ repo_id ++ "/" ++ filename)%string, data)])
       (fun _ _ => None)
       [] [].

(** A box whose left edge is one past the largest C integer. *)
Definition wide : Box :=
  mkBox (Finite (2147483648 # 1), Finite (10 # 1), Finite (2147483700 # 1), Finite (50 # 1))
        (Finite (9 # 10)) (Finite (0 # 1)).

(** A box whose confidence and corners are not numbers. *)
Definition blank : Box := mkBox (NaN, NaN, NaN, NaN) NaN (Finite (0 # 1)).

(** A stub that returns the box it is built with on every frame. *)
Definition stub_of (box : Box) : YOLO nat :=
  mkYOLO "models/best_yolov8m.pt" {[ 0 := "ball" ]}
    (fun st _ _ => (Ok [mkResults [box]], S st)).

(** The cache of the hub client where links are supported: the blob, a ref
    and, under [snapshots], the relative link to the blob that the client
    returns. *)
Fixpoint repo_folder_name (repo_id : string) : string :=
  match repo_id with
  | EmptyString => EmptyString
  | String c rest =>
      if is_slash c then ("--" ++ repo_folder_name rest)%string
      else String c (repo_folder_name rest)
  end.

Definition repo_folder (repo_id : string) : string :=
  ("/home/app/.cache/huggingface/hub/models--" ++ repo_folder_name repo_id)%string.

Definition linux : OS :=
  mkOS files
       {[ (HF_REPO_ID, "best_YOLOv5n6u.pt") := DataFile [];
          (HF_REPO_ID, "modelo_test_video.mp4") := VideoFile [raw 0; raw 1; raw 2] ]}
       (fun repo_id filename =>
          (repo_folder repo_id ++ "/snapshots/main/" ++ filename)%string)
       (fun repo_id filename data =>
          [((repo_folder repo_id ++ "/blobs/" ++ filename)%string, data);
           ((repo_folder repo_id ++ "/refs/main")%string, DataFile []);
           ((repo_folder repo_id ++ "/snapshots/main/" ++ filename)%string,
            Symlink ("../../blobs/" ++ filename)%string)])
       (fun _ _ => None)
       [] [].

(** The same where the directory [models] is missing: nothing can be moved
    into it. *)
Definition no_models_dir : OS :=
  mkOS files (hub os0) (hf_cache os0) (hf_writes os0)
       (fun src dst =>
          if String.eqb (os_path_dirname dst) "models"
          then Some (FileNotFoundError dst) else None)
       [] [].

End Demo.

(** Inputs for the page: a constructor that loads any weights file that is
    there, and what the widgets return in a few runs. *)
Module DemoPage.

Definition YOLO_load (files : gmap string FileData) (path : string)
    : result (YOLO nat * nat) :=
  match follow MAXSYMLINKS files path with
  | Some _ => Ok (Demo.stub path, 0%nat)
  | None => Err (FileNotFoundError path)
  end.


Definition logged_out : gmap string bool := ∅.
Definition logged_in : gmap string bool := {[ "logged_in" := true ]}.

(** The login form filled in with the right credentials and submitted. *)
Definition login_click : Widgets :=
  mkWidgets "demo" "yolo2024" true "YOLOv11m" "Video de Carpeta" "Video 1" None false false.

(** The first video of the folder, processed with YOLOv5n6u. *)
Definition process_click : Widgets :=
  mkWidgets "" "" false "YOLOv5n6u" "Video de Carpeta" "Video 1" None true false.

(** The upload source chosen, no file given yet. *)
Definition upload_nothing : Widgets :=
  mkWidgets "" "" false "YOLOv5n6u" "Subir Video" "Video 1" None false false.

(** A file uploaded whose name is not a file on disk, then processed. *)
Definition upload_click : Widgets :=
  mkWidgets "" "" false "YOLOv5n6u" "Subir Video" "Video 1" (Some "partido.mp4") true false.

Definition logout_click : Widgets :=
  mkWidgets "" "" false "YOLOv5n6u" "Video de Carpeta" "Video 1" None false true.

(** A stub that reports a class index its [names] does not have. *)
Definition unnamed : YOLO nat :=
  mkYOLO "models/best_yolov8m.pt" {[ 0 := "ball" ]}
    (fun st _ _ =>
       (Ok [mkResults [Demo.ball;
                       mkBox (Finite (1 # 1), Finite (2 # 1), Finite (3 # 1), Finite (4 # 1))
                             (Finite (1 # 2)) (Finite (7 # 1))]],
        S st)).

End DemoPage.

(** * Properties *)

(** ** The pipeline monad *)

Section PipelineFacts.

Context {MState : Type}.
Implicit Types (model : PyVal MState) (m : YOLO MState) (st : MState).
Implicit Types (frame raw img : Image) (tr : list Event).

Lemma bind_ok {A B} (c : M MState A) (f : A -> M MState B) st a st1 tr1 :
  c st = (Ok a, st1, tr1) ->
  bind c f st = (let '(r, st2, tr2) := f a st1 in (r, st2, tr1 ++ tr2)).
Proof. intros H. unfold bind. rewrite H. reflexivity. Qed.

Lemma bind_err {A B} (c : M MState A) (f : A -> M MState B) st e st1 tr1 :
  c st = (Err e, st1, tr1) -> bind c f st = (Err e, st1, tr1).
Proof. intros H. unfold bind. rewrite H. reflexivity. Qed.

(** ** Drawing *)

Lemma draw_nil img : draw img [] = img.
Proof. destruct img. unfold draw. simpl. rewrite app_nil_r. reflexivity. Qed.

Lemma draw_draw img ops1 ops2 : draw (draw img ops1) ops2 = draw img (ops1 ++ ops2).
Proof. unfold draw. simpl. rewrite app_assoc. reflexivity. Qed.

Lemma draw_shape img ops : shape (draw img ops) = shape img.
Proof. reflexivity. Qed.

Lemma draw_picture img ops : picture (draw img ops) = picture img.
Proof. reflexivity. Qed.

(** Drawing one box makes the two overlays of [box_outcome] or raises its
    exception; nothing of a box that cannot be drawn stays on the frame the
    caller gets, which is none. *)
Lemma draw_box_outcome m frame box :
  draw_box (PyYOLO m) frame box
  = match box_outcome (names m) box with
    | Ok ops => Ok (draw frame ops)
    | Err e => Err e
    end.
Proof.
  unfold draw_box, box_outcome. destruct (xyxy box) as [[[a b] c] d].
  destruct (float_int a) as [x1|e]; [|reflexivity].
  destruct (float_int b) as [y1|e]; [|reflexivity].
  destruct (float_int c) as [x2|e]; [|reflexivity].
  destruct (float_int d) as [y2|e]; [|reflexivity].
  destruct (float_int (cls box)) as [k|e]; [|reflexivity].
  cbn [and_then py_names].
  destruct (names m !! k) as [class_name|]; [|reflexivity].
  cbn [and_then]. unfold cv2_rectangle, cv2_putText, overlay_color, box_overlay.
  destruct (c_point (x1, y1) && c_point (x2, y2)); [|reflexivity].
  cbn [and_then negb].
  destruct (c_point (x1, y1 - 10)); [|reflexivity].
  cbn [negb]. rewrite draw_draw. reflexivity.
Qed.

Lemma draw_boxes_outcome m bs : forall frame,
  draw_boxes (PyYOLO m) frame bs
  = match overlays_of (names m) bs with
    | Ok ops => Ok (draw frame ops)
    | Err e => Err e
    end.
Proof.
  induction bs as [|box bs IH]; intros frame; cbn [draw_boxes overlays_of].
  - rewrite draw_nil. reflexivity.
  - rewrite draw_box_outcome.
    destruct (box_outcome (names m) box) as [ops|e]; [|reflexivity].
    cbn [and_then]. rewrite IH.
    destruct (overlays_of (names m) bs) as [rest|e]; [|reflexivity].
    cbn [and_then]. rewrite draw_draw. reflexivity.
Qed.

Lemma overlays_of_app class_names bs1 bs2 :
  overlays_of class_names (bs1 ++ bs2)
  = (ops1 <~ overlays_of class_names bs1 ;;
     ops2 <~ overlays_of class_names bs2 ;;
     Ok (ops1 ++ ops2)).
Proof.
  induction bs1 as [|box bs1 IH]; cbn [overlays_of app and_then].
  - destruct (overlays_of class_names bs2); reflexivity.
  - destruct (box_outcome class_names box) as [ops|e]; [|reflexivity].
    cbn [and_then]. rewrite IH.
    destruct (overlays_of class_names bs1) as [rest1|e]; [|reflexivity].
    cbn [and_then].
    destruct (overlays_of class_names bs2) as [rest2|e]; [|reflexivity].
    cbn [and_then]. rewrite app_assoc. reflexivity.
Qed.

Lemma draw_results_outcome m results : forall frame,
  draw_results (PyYOLO m) frame results
  = match overlays_of (names m) (detections results) with
    | Ok ops => Ok (draw frame ops)
    | Err e => Err e
    end.
Proof.
  induction results as [|r results IH]; intros frame.
  - cbn. rewrite draw_nil. reflexivity.
  - cbn [draw_results]. unfold detections in *. cbn [flat_map].
    rewrite overlays_of_app, draw_boxes_outcome.
    destruct (overlays_of (names m) (boxes r)) as [ops|e]; [|reflexivity].
    cbn [and_then]. rewrite IH.
    destruct (overlays_of (names m) (flat_map boxes results)) as [rest|e];
      [|reflexivity].
    cbn [and_then]. rewrite draw_draw. reflexivity.
Qed.

(** Boxes that can all be drawn have their overlays, two for each: a
    rectangle and a label. *)
Lemma overlays_of_drawable class_names bs :
  Forall (drawable class_names) bs -> exists ops, overlays_of class_names bs = Ok ops.
Proof.
  induction 1 as [|box bs Hbox _ [rest IH]]; [exists []; reflexivity|].
  unfold drawable in Hbox. cbn [overlays_of].
  destruct (box_outcome class_names box) as [ops|e]; [|discriminate].
  rewrite IH. cbn [and_then]. eauto.
Qed.

Lemma box_outcome_length class_names box ops :
  box_outcome class_names box = Ok ops ->
  length ops = 2%nat /\ length (List.filter is_rectangle ops) = 1%nat.
Proof.
  unfold box_outcome. destruct (xyxy box) as [[[a b] c] d].
  destruct (float_int a) as [x1|e]; [|discriminate].
  destruct (float_int b) as [y1|e]; [|discriminate].
  destruct (float_int c) as [x2|e]; [|discriminate].
  destruct (float_int d) as [y2|e]; [|discriminate].
  destruct (float_int (cls box)) as [k|e]; [|discriminate].
  cbn [and_then].
  destruct (class_names !! k) as [class_name|]; [|discriminate].
  destruct (negb (c_point (x1, y1) && c_point (x2, y2))); [discriminate|].
  destruct (negb (c_point (x1, y1 - 10))); [discriminate|].
  intros [= <-]. split; reflexivity.
Qed.

Lemma overlays_of_length class_names bs : forall ops,
  overlays_of class_names bs = Ok ops ->
  length ops = (2 * length bs)%nat /\
  length (List.filter is_rectangle ops) = length bs.
Proof.
  induction bs as [|box bs IH]; intros ops; cbn [overlays_of].
  - intros [= <-]. split; reflexivity.
  - destruct (box_outcome class_names box) as [ops1|e] eqn:Hbox; [|discriminate].
    cbn [and_then].
    destruct (overlays_of class_names bs) as [rest|e]; [|discriminate].
    cbn [and_then]. intros [= <-].
    destruct (box_outcome_length _ _ _ Hbox) as [Hl Hr].
    destruct (IH rest eq_refl) as [IHl IHr].
    rewrite List.filter_app, !length_app, Hl, Hr, IHl, IHr. cbn [length]. lia.
Qed.

(** Boxes that cannot all be drawn: the first that cannot gives the
    exception. *)
Lemma overlays_of_raises class_names bs : forall e,
  overlays_of class_names bs = Err e ->
  exists pre box post,
    bs = pre ++ box :: post /\
    Forall (drawable class_names) pre /\
    box_outcome class_names box = Err e.
Proof.
  induction bs as [|box bs IH]; intros e; cbn [overlays_of]; [discriminate|].
  destruct (box_outcome class_names box) as [ops|e1] eqn:Hbox.
  - cbn [and_then].
    destruct (overlays_of class_names bs) as [rest|e2]; [discriminate|].
    cbn [and_then]. intros [= <-].
    destruct (IH e2 eq_refl) as (pre & box' & post & -> & Hpre & Hbox').
    exists (box :: pre), box', post. split; [reflexivity|]. split; [|exact Hbox'].
    constructor; [|exact Hpre]. unfold drawable. rewrite Hbox. reflexivity.
  - cbn [and_then]. intros [= <-]. exists [], box, bs.
    split; [reflexivity|]. split; [constructor|exact Hbox].
Qed.

(** ** One iteration *)

Lemma process_frame_yolo m size raw st :
  process_frame (PyYOLO m) size raw st =
  (let frame := cv2_resize raw size in
   match predict m st frame conf_threshold with
   | (Ok results, st1) =>
       (draw_results (PyYOLO m) frame results, st1,
        [EvInfer frame conf_threshold (Ok results)])
   | (Err e, st1) => (Err e, st1, [EvInfer frame conf_threshold (Err e)])
   end).
Proof.
  unfold process_frame, bind, py_call. simpl.
  destruct (predict m st (cv2_resize raw size) conf_threshold) as [[results|e] st1];
    [|reflexivity].
  destruct (draw_results (PyYOLO m) (cv2_resize raw size) results); reflexivity.
Qed.

Lemma process_frame_str s size raw st :
  process_frame (PyStr s : PyVal MState) size raw st =
  (Err (TypeError "'str' object is not callable"), st,
   [EvInfer (cv2_resize raw size) conf_threshold
            (Err (TypeError "'str' object is not callable"))]).
Proof. reflexivity. Qed.

(** Whatever the model, an iteration calls it once, on the resized frame,
    with the threshold 0.3, and does nothing else to the outside. *)
Lemma process_frame_trace model size raw st :
  exists outcome,
    snd (process_frame model size raw st)
    = [EvInfer (cv2_resize raw size) (3 # 10) outcome].
Proof.
  destruct model as [s|m].
  - rewrite process_frame_str. eauto.
  - rewrite process_frame_yolo. simpl.
    destruct (predict m st (cv2_resize raw size) conf_threshold) as [[results|e] st1];
      simpl; eauto.
Qed.

(** ** The loop, one step at a time *)

Lemma frame_loop_done model size max_frames o pend fc processed st :
  o && (fc <? max_frames) = false ->
  frame_loop model size max_frames o pend fc processed st = (Ok processed, st, []).
Proof. intros H. destruct pend; simpl; rewrite H; reflexivity. Qed.

Lemma frame_loop_eof model size max_frames o fc processed st :
  o && (fc <? max_frames) = true ->
  frame_loop model size max_frames o [] fc processed st
  = (Ok processed, st, [EvRead false]).
Proof. intros H. simpl. rewrite H. reflexivity. Qed.

Lemma frame_loop_step model size max_frames o raw rest fc processed st :
  o && (fc <? max_frames) = true ->
  frame_loop model size max_frames o (raw :: rest) fc processed st =
  match process_frame model size raw st with
  | (Ok frame, st1, tr1) =>
      let '(r, st2, tr2) :=
        frame_loop model size max_frames o rest (fc + 1) (processed ++ [frame]) st1 in
      (r, st2, EvRead true :: tr1 ++ tr2)
  | (Err e, st1, tr1) => (Err e, st1, EvRead true :: tr1)
  end.
Proof.
  intros H. simpl. rewrite H. unfold bind at 1. simpl. unfold bind at 1.
  destruct (process_frame model size raw st) as [[[frame|e] st1] tr1]; [|reflexivity].
  destruct (frame_loop model size max_frames o rest (fc + 1) (processed ++ [frame]) st1)
    as [[r st2] tr2].
  reflexivity.
Qed.

Lemma process_video_unfold files video_path model max_frames st :
  process_video files video_path model max_frames st =
  (let cap := cv2_VideoCapture files video_path in
   match frame_loop model (select_size model) max_frames (opened cap) (pending cap)
                    0 [] st with
   | (Ok out, st1, tr1) => (Ok out, st1, EvOpen video_path (opened cap) :: tr1 ++ [EvRelease])
   | (Err e, st1, tr1) => (Err e, st1, EvOpen video_path (opened cap) :: tr1)
   end).
Proof.
  unfold process_video. unfold bind at 1. simpl. unfold bind at 1.
  destruct (frame_loop model (select_size model) max_frames
              (opened (cv2_VideoCapture files video_path))
              (pending (cv2_VideoCapture files video_path)) 0 [] st)
    as [[[out|e] st1] tr1]; reflexivity.
Qed.

(** A capture that did not open has nothing pending. *)
Lemma unopened_pending files video_path :
  opened (cv2_VideoCapture files video_path) = false ->
  pending (cv2_VideoCapture files video_path) = [].
Proof.
  unfold cv2_VideoCapture.
  destruct (follow MAXSYMLINKS files video_path) as [[frames|content|target]|];
    simpl; congruence.
Qed.

(** ** What the loop does over a whole video *)

Lemma loop_event_weaken size raw pend ev :
  loop_event size pend ev -> loop_event size (raw :: pend) ev.
Proof.
  destruct ev; simpl; auto.
  intros [Hc (raw' & Hin & Hf)]. split; [exact Hc|]. exists raw'. auto.
Qed.

(** Every event of the loop is a read or a call of the model on a resized
    frame with the threshold 0.3, whether the run returns or raises. *)
Lemma frame_loop_events model size max_frames o pend : forall fc processed st,
  Forall (loop_event size pend)
         (snd (frame_loop model size max_frames o pend fc processed st)).
Proof.
  induction pend as [|raw rest IH]; intros fc processed st.
  - destruct (o && (fc <? max_frames)) eqn:Hc.
    + rewrite frame_loop_eof by exact Hc. repeat constructor.
    + rewrite frame_loop_done by exact Hc. constructor.
  - destruct (o && (fc <? max_frames)) eqn:Hc.
    + rewrite frame_loop_step by exact Hc.
      destruct (process_frame_trace model size raw st) as [outcome Htr].
      assert (Hcall : loop_event size (raw :: rest)
                        (EvInfer (cv2_resize raw size) (3 # 10) outcome)).
      { split; [reflexivity|]. exists raw. split; [left|]; reflexivity. }
      destruct (process_frame model size raw st) as [[[frame|e] st1] tr1];
        simpl in Htr; subst tr1.
      * specialize (IH (fc + 1) (processed ++ [frame]) st1).
        destruct (frame_loop model size max_frames o rest (fc + 1)
                    (processed ++ [frame]) st1) as [[r st2] tr2].
        simpl in *. constructor; [exact I|]. constructor; [exact Hcall|].
        eapply Forall_impl; [exact IH|]. intros ev. apply loop_event_weaken.
      * simpl. constructor; [exact I|]. constructor; [exact Hcall|constructor].
    + rewrite frame_loop_done by exact Hc. constructor.
Qed.

Lemma count_none (p : Event -> bool) tr :
  Forall (fun ev => p ev = false) tr -> count p tr = 0%nat.
Proof.
  unfold count. induction 1 as [|ev tr Hev _ IH]; [reflexivity|].
  simpl. rewrite Hev. exact IH.
Qed.

Lemma count_app (p : Event -> bool) tr1 tr2 :
  count p (tr1 ++ tr2) = (count p tr1 + count p tr2)%nat.
Proof. unfold count. rewrite List.filter_app, length_app. reflexivity. Qed.

Lemma frame_loop_handle model size max_frames o pend fc processed st :
  let tr := snd (frame_loop model size max_frames o pend fc processed st) in
  count is_open tr = 0%nat /\ count is_release tr = 0%nat.
Proof.
  pose proof (frame_loop_events model size max_frames o pend fc processed st) as H.
  split; apply count_none; (eapply Forall_impl; [exact H|]);
    intros [] Hev; simpl in *; tauto.
Qed.

Lemma after_with_image processed img r :
  after (processed ++ [img]) r = after processed (with_image img r).
Proof. destruct r; simpl; [rewrite <- app_assoc|]; reflexivity. Qed.

(** Every run of the loop with a model object is a [pipeline_run] over the
    frames the cap leaves room for, whether it returns or raises: the calls
    recorded are the calls of the model, made one after the other, and what
    the loop adds to its list is what they returned, drawn. *)
Lemma frame_loop_run m size max_frames pend :
  forall fc processed st r st' tr,
  frame_loop (PyYOLO m) size max_frames true pend fc processed st = (r, st', tr) ->
  exists r',
    r = after processed r' /\
    pipeline_run m size st (firstn (Z.to_nat (max_frames - fc)) pend) r' st'
                 (inferences tr).
Proof.
  induction pend as [|raw rest IH]; intros fc processed st r st' tr Hrun.
  - exists (Ok []). rewrite firstn_nil.
    destruct (true && (fc <? max_frames)) eqn:Hc.
    + rewrite frame_loop_eof in Hrun by exact Hc. injection Hrun as <- <- <-.
      cbn [after]. rewrite app_nil_r. split; [reflexivity|constructor].
    + rewrite frame_loop_done in Hrun by exact Hc. injection Hrun as <- <- <-.
      cbn [after]. rewrite app_nil_r. split; [reflexivity|constructor].
  - destruct (true && (fc <? max_frames)) eqn:Hc.
    + rewrite frame_loop_step in Hrun by exact Hc.
      rewrite process_frame_yolo in Hrun. cbv zeta in Hrun.
      cbn [andb] in Hc. apply Z.ltb_lt in Hc.
      replace (Z.to_nat (max_frames - fc))
        with (S (Z.to_nat (max_frames - (fc + 1)))) by lia.
      cbn [firstn]. unfold conf_threshold in Hrun.
      destruct (predict m st (cv2_resize raw size) (3 # 10))
        as [[results|e] st1] eqn:Hcall.
      * rewrite draw_results_outcome in Hrun.
        destruct (overlays_of (names m) (detections results)) as [ops|e] eqn:Hops.
        -- destruct (frame_loop (PyYOLO m) size max_frames true rest (fc + 1)
                       (processed ++ [draw (cv2_resize raw size) ops]) st1)
             as [[r2 st2] tr2] eqn:Hrest.
           injection Hrun as <- <- <-.
           destruct (IH _ _ _ _ _ _ Hrest) as (r' & -> & Hrun').
           exists (with_image (draw (cv2_resize raw size) ops) r').
           split; [apply after_with_image|].
           cbn [inferences flat_map app]. eapply run_frame; eassumption.
        -- injection Hrun as <- <- <-. exists (Err e).
           split; [reflexivity|]. cbn [inferences flat_map app].
           eapply run_draw_raises; eassumption.
      * injection Hrun as <- <- <-. exists (Err e).
        split; [reflexivity|]. cbn [inferences flat_map app].
        eapply run_model_raises; eassumption.
    + rewrite frame_loop_done in Hrun by exact Hc. injection Hrun as <- <- <-.
      cbn [andb] in Hc. apply Z.ltb_ge in Hc.
      replace (Z.to_nat (max_frames - fc)) with 0%nat by lia.
      exists (Ok []). cbn [after firstn inferences flat_map]. rewrite app_nil_r.
      split; [reflexivity|constructor].
Qed.

(** A run that returns kept one image per frame, the frame resized with
    overlays on it, and called the model once for each. *)
Lemma pipeline_run_returns m size st raws out st' calls :
  pipeline_run m size st raws (Ok out) st' calls ->
  length out = length raws /\
  length calls = length raws /\
  map picture out = map picture raws /\
  Forall (fun img => shape img = size) out.
Proof.
  intros Hrun. remember (Ok out) as r eqn:Hr. revert out Hr.
  induction Hrun as [st|st raw raws results st1 ops r st' calls Hcall Hops Hrun IH
                     |st raw raws e st1 Hcall|st raw raws results st1 e Hcall Hops];
    intros out Hr; try discriminate.
  - injection Hr as <-. repeat split; constructor.
  - destruct r as [out'|e]; [|discriminate]. injection Hr as <-.
    destruct (IH out' eq_refl) as (Hlen & Hcalls & Hpic & Hshape).
    cbn [length map]. rewrite Hlen, Hcalls, Hpic.
    repeat split. constructor; [|exact Hshape]. destruct size. reflexivity.
Qed.

(** On frames that come without drawings, such a run left two overlays on
    each image for each box of its call, one of them a rectangle. *)
Lemma pipeline_run_overlays m size st raws out st' calls :
  pipeline_run m size st raws (Ok out) st' calls ->
  Forall (fun raw => overlay raw = []) raws ->
  Forall2 (fun call img =>
             exists results,
               snd call = Ok results /\
               detection_count img = length (detections results) /\
               length (overlay img) = (2 * length (detections results))%nat)
          calls out.
Proof.
  intros Hrun. remember (Ok out) as r eqn:Hr. revert out Hr.
  induction Hrun as [st|st raw raws results st1 ops r st' calls Hcall Hops Hrun IH
                     |st raw raws e st1 Hcall|st raw raws results st1 e Hcall Hops];
    intros out Hr Hraw; try discriminate.
  - injection Hr as <-. constructor.
  - destruct r as [out'|e]; [|discriminate]. injection Hr as <-.
    inversion Hraw as [|? ? Hnone Hrest]; subst.
    constructor; [|apply IH; [reflexivity|exact Hrest]].
    exists results. split; [reflexivity|].
    destruct (overlays_of_length _ _ _ Hops) as [Hl Hf].
    unfold detection_count. destruct size as [w h]. cbn [draw cv2_resize overlay].
    rewrite Hnone. cbn [app]. auto.
Qed.

(** A well-behaved model never makes the loop raise. *)
Lemma frame_loop_total m size max_frames o pend :
  well_behaved m ->
  forall fc processed st,
  exists out st' tr,
    frame_loop (PyYOLO m) size max_frames o pend fc processed st = (Ok out, st', tr).
Proof.
  intros Hm. induction pend as [|raw rest IH]; intros fc processed st.
  - destruct (o && (fc <? max_frames)) eqn:Hc.
    + rewrite frame_loop_eof by exact Hc. eauto.
    + rewrite frame_loop_done by exact Hc. eauto.
  - destruct (o && (fc <? max_frames)) eqn:Hc.
    + rewrite frame_loop_step by exact Hc. rewrite process_frame_yolo. cbv zeta.
      destruct (Hm st (cv2_resize raw size) conf_threshold)
        as (results & st1 & -> & Hdrawable).
      rewrite draw_results_outcome.
      destruct (overlays_of_drawable _ _ Hdrawable) as [ops ->].
      destruct (IH (fc + 1) (processed ++ [draw (cv2_resize raw size) ops]) st1)
        as (out & st' & tr & ->).
      eauto.
    + rewrite frame_loop_done by exact Hc. eauto.
Qed.

(** With a [str] for a model the loop returns only what it was given: the
    first frame it reads raises. *)
Lemma frame_loop_str s size max_frames o pend fc processed (st : MState) out st' tr :
  frame_loop (PyStr s) size max_frames o pend fc processed st = (Ok out, st', tr) ->
  out = processed.
Proof.
  intros Hrun. destruct (o && (fc <? max_frames)) eqn:Hc.
  - destruct pend as [|raw rest].
    + rewrite frame_loop_eof in Hrun by exact Hc. congruence.
    + rewrite frame_loop_step in Hrun by exact Hc.
      rewrite process_frame_str in Hrun. discriminate.
  - rewrite frame_loop_done in Hrun by exact Hc. congruence.
Qed.

(** The outcome of the loop with a deterministic model does not depend on
    the state the model starts in. *)
Lemma frame_loop_deterministic model size max_frames o pend :
  deterministic model ->
  forall fc processed st1 st2,
    fst (fst (frame_loop model size max_frames o pend fc processed st1))
    = fst (fst (frame_loop model size max_frames o pend fc processed st2)).
Proof.
  intros Hdet. induction pend as [|raw rest IH]; intros fc processed st1 st2.
  - destruct (o && (fc <? max_frames)) eqn:Hc.
    + rewrite !frame_loop_eof by exact Hc. reflexivity.
    + rewrite !frame_loop_done by exact Hc. reflexivity.
  - destruct (o && (fc <? max_frames)) eqn:Hc.
    + rewrite !frame_loop_step by exact Hc.
      destruct model as [s|m].
      * rewrite !process_frame_str. reflexivity.
      * rewrite !process_frame_yolo. simpl.
        specialize (Hdet st1 st2 (cv2_resize raw size) conf_threshold).
        destruct (predict m st1 (cv2_resize raw size) conf_threshold) as [o1 st1'].
        destruct (predict m st2 (cv2_resize raw size) conf_threshold) as [o2 st2'].
        simpl in Hdet. subst o2. destruct o1 as [results|e]; [|reflexivity].
        destruct (draw_results (PyYOLO m) (cv2_resize raw size) results)
          as [frame|e]; [|reflexivity].
        specialize (IH (fc + 1) (processed ++ [frame]) st1' st2').
        destruct (frame_loop (PyYOLO m) size max_frames o rest (fc + 1)
                    (processed ++ [frame]) st1') as [[r1 s1] t1].
        destruct (frame_loop (PyYOLO m) size max_frames o rest (fc + 1)
                    (processed ++ [frame]) st2') as [[r2 s2] t2].
        exact IH.
    + rewrite !frame_loop_done by exact Hc. reflexivity.
Qed.

(** ** The pipeline as a whole *)

(** Every run of the whole pipeline with a model object is a [pipeline_run]
    from the state the model was in, over the first [max_frames] frames the
    video decodes to, at 640x360. *)
Lemma process_video_run files video_path m max_frames st r st' tr :
  process_video files video_path (PyYOLO m) max_frames st = (r, st', tr) ->
  pipeline_run m (640, 360) st
               (firstn (Z.to_nat max_frames) (decodable files video_path))
               r st' (inferences tr).
Proof.
  rewrite process_video_unfold. cbv zeta. unfold decodable.
  change (select_size (PyYOLO m)) with (640, 360).
  destruct (opened (cv2_VideoCapture files video_path)) eqn:Hopen.
  - destruct (frame_loop (PyYOLO m) (640, 360) max_frames true
                (pending (cv2_VideoCapture files video_path)) 0 [] st)
      as [[r1 st1] tr1] eqn:Hloop.
    apply frame_loop_run in Hloop as (r' & -> & Hrun).
    rewrite Z.sub_0_r in Hrun.
    destruct r' as [new|e]; cbn [after app]; intros [= <- <- <-].
    + unfold inferences in *. cbn [flat_map app]. rewrite flat_map_app.
      cbn [flat_map]. rewrite app_nil_r. exact Hrun.
    + exact Hrun.
  - rewrite frame_loop_done by reflexivity. intros [= <- <- <-].
    rewrite (unopened_pending _ _ Hopen), firstn_nil. constructor.
Qed.

Lemma firstn_min {A} (l : list A) n : firstn (Nat.min (length l) n) l = firstn n l.
Proof.
  destruct (Nat.le_ge_cases n (length l)) as [H|H].
  - rewrite Nat.min_r by exact H. reflexivity.
  - rewrite Nat.min_l by exact H. rewrite !firstn_all2 by lia. reflexivity.
Qed.

(** A run of the whole pipeline with a model object that returns. *)
Lemma process_video_returns files video_path m max_frames st out st' tr :
  process_video files video_path (PyYOLO m) max_frames st = (Ok out, st', tr) ->
  length out = Nat.min (length (decodable files video_path)) (Z.to_nat max_frames) /\
  pipeline_run m (640, 360) st (firstn (length out) (decodable files video_path))
               (Ok out) st' (inferences tr).
Proof.
  intros Hrun. apply process_video_run in Hrun.
  destruct (pipeline_run_returns _ _ _ _ _ _ _ Hrun) as (Hlen & _).
  rewrite length_firstn, Nat.min_comm in Hlen.
  split; [exact Hlen|]. rewrite Hlen, firstn_min. exact Hrun.
Qed.

(** X1. No call returns an image of another size than 640x360: a model
    object never compares equal to the file name, and a [str], which can,
    cannot be called on the first frame. *)
Lemma process_video_frame_size files video_path model max_frames st out st' tr :
  process_video files video_path model max_frames st = (Ok out, st', tr) ->
  Forall (fun img => shape img = (640, 360)) out.
Proof.
  destruct model as [s|m].
  - rewrite process_video_unfold. cbv zeta.
    destruct (frame_loop (PyStr s) (select_size (PyStr s)) max_frames
                (opened (cv2_VideoCapture files video_path))
                (pending (cv2_VideoCapture files video_path)) 0 [] st)
      as [[[out1|e] st1] tr1] eqn:Hloop; [|discriminate].
    intros [= <- <- <-]. apply frame_loop_str in Hloop as ->. constructor.
  - intros Hrun. apply process_video_run in Hrun.
    apply pipeline_run_returns in Hrun as (_ & _ & _ & Hshape). exact Hshape.
Qed.

(** X2. The capture is opened once on every run; it is released once when
    the run returns and not at all when it raises. *)
Lemma process_video_handle files video_path model max_frames st :
  let run := process_video files video_path model max_frames st in
  count is_open (snd run) = 1%nat /\
  count is_release (snd run) = (if is_ok (fst (fst run)) then 1 else 0)%nat.
Proof.
  cbv zeta. rewrite process_video_unfold. cbv zeta.
  pose proof (frame_loop_handle model (select_size model) max_frames
                (opened (cv2_VideoCapture files video_path))
                (pending (cv2_VideoCapture files video_path)) 0 [] st) as [Ho Hr].
  destruct (frame_loop model (select_size model) max_frames
              (opened (cv2_VideoCapture files video_path))
              (pending (cv2_VideoCapture files video_path)) 0 [] st)
    as [[[out|e] st1] tr1]; simpl in *.
  - change (EvOpen video_path (opened (cv2_VideoCapture files video_path))
              :: tr1 ++ [EvRelease])
      with ([EvOpen video_path (opened (cv2_VideoCapture files video_path))]
              ++ tr1 ++ [EvRelease]).
    rewrite !count_app, Ho, Hr. split; reflexivity.
  - change (EvOpen video_path (opened (cv2_VideoCapture files video_path)) :: tr1)
      with ([EvOpen video_path (opened (cv2_VideoCapture files video_path))] ++ tr1).
    rewrite !count_app, Ho, Hr. split; reflexivity.
Qed.

(** C2. For a video with N decodable frames and a cap M, [process_video],
    given a model whose calls do not raise and whose boxes can be drawn,
    returns a list (the whole batch, not a stream) of exactly min(N, M)
    images ([Z.to_nat M] is M for a cap M >= 0), in the order of the video:
    the i-th is the i-th frame, resized and carrying the overlays of the
    boxes that the model, called on it after the frames before it, returned
    for it; with no cap given, M is 100. *)
Theorem process_video_returns_min_frames
    files video_path (m : YOLO MState) max_frames st :
  well_behaved m ->
  exists out st' tr,
    process_video files video_path (PyYOLO m) max_frames st = (Ok out, st', tr) /\
    length out = Nat.min (length (decodable files video_path)) (Z.to_nat max_frames) /\
    (0 <= max_frames ->
     Z.of_nat (length out)
     = Z.min (Z.of_nat (length (decodable files video_path))) max_frames) /\
    map picture out = map picture (firstn (length out) (decodable files video_path)) /\
    pipeline_run m (640, 360) st (firstn (length out) (decodable files video_path))
                 (Ok out) st' (inferences tr) /\
    process_video_default files video_path (PyYOLO m)
    = process_video files video_path (PyYOLO m) 100.
Proof.
  intros Hm.
  destruct (frame_loop_total m (640, 360) max_frames
              (opened (cv2_VideoCapture files video_path))
              (pending (cv2_VideoCapture files video_path)) Hm 0 [] st)
    as (out & st' & tr1 & Hloop).
  pose proof (process_video_unfold files video_path (PyYOLO m) max_frames st) as Hrun.
  cbv zeta in Hrun. change (select_size (PyYOLO m)) with (640, 360) in Hrun.
  rewrite Hloop in Hrun.
  exists out, st', (EvOpen video_path (opened (cv2_VideoCapture files video_path))
                      :: tr1 ++ [EvRelease]).
  destruct (process_video_returns _ _ _ _ _ _ _ _ Hrun) as [Hlen Hall].
  split; [exact Hrun|]. split; [exact Hlen|]. split; [lia|].
  split; [apply (pipeline_run_returns _ _ _ _ _ _ _ Hall)|].
  split; [exact Hall|reflexivity].
Qed.

(** C4 (amended). When the source cannot be opened or has no readable frame,
    [process_video] raises nothing and returns the empty list, whatever the
    model and the cap; no frame is resized, inferred on or kept. The capture
    that did not open is never read; the one that opened without a frame is
    read once (when the cap admits a frame), the read fails and the loop
    ends. *)
Theorem process_video_nothing_to_decode
    files video_path (model : PyVal MState) max_frames st :
  decodable files video_path = [] ->
  process_video files video_path model max_frames st =
  (Ok [], st,
   EvOpen video_path (opened (cv2_VideoCapture files video_path))
     :: (if opened (cv2_VideoCapture files video_path) && (0 <? max_frames)
         then [EvRead false] else [])
     ++ [EvRelease]).
Proof.
  unfold decodable. intros Hnone. rewrite process_video_unfold. cbv zeta.
  rewrite Hnone.
  destruct (opened (cv2_VideoCapture files video_path) && (0 <? max_frames)) eqn:Hc.
  - rewrite frame_loop_eof by exact Hc. reflexivity.
  - rewrite frame_loop_done by exact Hc. reflexivity.
Qed.

(** C5. With [max_frames = 0], [process_video] returns the empty list for
    every video and every model: the capture is opened, nothing is read, and
    the capture is released. *)
Theorem process_video_zero_cap files video_path (model : PyVal MState) st :
  process_video files video_path model 0 st =
  (Ok [], st,
   [EvOpen video_path (opened (cv2_VideoCapture files video_path)); EvRelease]).
Proof.
  rewrite process_video_unfold. cbv zeta.
  rewrite frame_loop_done; [reflexivity|].
  rewrite Z.ltb_irrefl. apply andb_false_r.
Qed.

(** C6. Every run of [process_video] with a model object, whether it
    returns or raises, goes over the first [max_frames] frames of the video
    in order, and in each iteration calls the model, in the state the
    iteration before left it in, on the frame resized to 640x360 with the
    confidence threshold 0.3; the image it keeps is that resized frame
    carrying, for every box the call returned, none filtered out, a rectangle
    on the box's integer corners and the label "<class name> <confidence to
    two decimals>" ten pixels above the top-left corner, both in colour
    (0, 255, 0) and thickness 2, the label at font scale 0.5. The calls it
    records are these calls and no other; it stops, raising, at the first
    call that raises or returns a box that cannot be drawn. *)
Theorem process_video_draws_every_detection
    files video_path (m : YOLO MState) max_frames st :
  let run := process_video files video_path (PyYOLO m) max_frames st in
  pipeline_run m (640, 360) st
               (firstn (Z.to_nat max_frames) (decodable files video_path))
               (fst (fst run)) (snd (fst run)) (inferences (snd run)).
Proof.
  intros run. apply process_video_run. subst run.
  destruct (process_video files video_path (PyYOLO m) max_frames st) as [[r st'] tr].
  reflexivity.
Qed.

(** C7. Two calls of [process_video] one after the other, with the same
    files, the same path, the same cap and the same deterministic model
    (the second call finds the model in the state the first left it in),
    have the same outcome: the same images, hence the same sequence of frame
    dimensions and the same number of detections on each frame, or the same
    exception. *)
Theorem process_video_repeatable
    files video_path (model : PyVal MState) max_frames st :
  deterministic model ->
  let first := process_video files video_path model max_frames st in
  let second := process_video files video_path model max_frames (snd (fst first)) in
  fst (fst first) = fst (fst second) /\
  frame_dimensions (fst (fst first)) = frame_dimensions (fst (fst second)) /\
  detection_counts (fst (fst first)) = detection_counts (fst (fst second)).
Proof.
  intros Hdet first second.
  assert (Hsame : fst (fst first) = fst (fst second)).
  { subst first second. rewrite !process_video_unfold. cbv zeta.
    set (st1 := snd (fst _)).
    pose proof (frame_loop_deterministic model (select_size model) max_frames
                  (opened (cv2_VideoCapture files video_path))
                  (pending (cv2_VideoCapture files video_path)) Hdet 0 [] st st1) as H.
    destruct (frame_loop model (select_size model) max_frames
                (opened (cv2_VideoCapture files video_path))
                (pending (cv2_VideoCapture files video_path)) 0 [] st)
      as [[[o1|e1] s1] t1];
    destruct (frame_loop model (select_size model) max_frames
                (opened (cv2_VideoCapture files video_path))
                (pending (cv2_VideoCapture files video_path)) 0 [] st1)
      as [[[o2|e2] s2] t2]; simpl in *; congruence. }
  rewrite Hsame. auto.
Qed.

End PipelineFacts.

(** ** The pipeline on concrete inputs *)

Lemma stub_well_behaved weights : well_behaved (Demo.stub weights).
Proof.
  intros st img c. exists [mkResults [Demo.ball]], (S st).
  split; [reflexivity|]. repeat constructor.
Qed.

Lemma stub_deterministic weights : deterministic (PyYOLO (Demo.stub weights)).
Proof. intros st1 st2 img c. reflexivity. Qed.

(** No image of another size is ever returned, here for the model [main]
    builds from best_YOLOv5n6u.pt. *)
Lemma process_video_frame_size_witness :
  let run := process_video Demo.files Demo.video (PyYOLO Demo.yolov5) 2 0%nat in
  run = (fst (fst run), snd (fst run), snd run) /\
  forall out, fst (fst run) = Ok out -> Forall (fun img => shape img = (640, 360)) out.
Proof.
  intros run. split; [reflexivity|]. intros out Hout.
  apply (process_video_frame_size Demo.files Demo.video (PyYOLO Demo.yolov5) 2 0%nat
           out (snd (fst run)) (snd run)).
  rewrite <- Hout. reflexivity.
Defined.

(** The scenario of the spec: 250 frames, the default cap of 100, a stub
    that finds one ball of confidence 0.9 in the box (10,10)-(50,50) on
    every frame. The result has 100 images, each with that rectangle and the
    label ball 0.90, and the capture is opened and released once. *)
Example process_video_250_frames :
  let files : gmap string FileData :=
    {[ Demo.video := VideoFile (map (fun i => Demo.raw (N.of_nat i)) (seq 0 250)) ]} in
  let run := process_video_default files Demo.video (PyYOLO Demo.yolov5) 0%nat in
  exists out,
    fst (fst run) = Ok out /\
    length out = 100%nat /\
    map picture out = map N.of_nat (seq 0 100) /\
    forallb (fun img =>
               match overlay img with
               | [Rectangle (10, 10) (50, 50) (0, 255, 0) 2;
                  PutText label (10, 0) FONT_HERSHEY_SIMPLEX _ (0, 255, 0) 2] =>
                   String.eqb label "ball 0.90"
               | _ => false
               end) out = true /\
    count is_open (snd run) = 1%nat /\ count is_release (snd run) = 1%nat.
Proof.
  cbv zeta. eexists. split; [vm_compute; reflexivity|].
  vm_compute. repeat split; reflexivity.
Qed.

(** The same in small: three frames and a cap of two. *)
Example process_video_two_of_three :
  fst (fst (process_video Demo.files Demo.video (PyYOLO Demo.yolov5) 2 0%nat))
  = Ok [ mkImage 640 360 0
           [ Rectangle (10, 10) (50, 50) (0, 255, 0) 2;
             PutText "ball 0.90" (10, 0) FONT_HERSHEY_SIMPLEX (1 # 2) (0, 255, 0) 2 ];
         mkImage 640 360 1
           [ Rectangle (10, 10) (50, 50) (0, 255, 0) 2;
             PutText "ball 0.90" (10, 0) FONT_HERSHEY_SIMPLEX (1 # 2) (0, 255, 0) 2 ] ].
Proof. vm_compute. reflexivity. Qed.

(** Without determinism the two calls may differ: a model that returns as
    many boxes as it has been called before. *)
Example moody_model_not_repeatable :
  let first := process_video Demo.files Demo.video (PyYOLO Demo.moody) 1 0%nat in
  let second := process_video Demo.files Demo.video (PyYOLO Demo.moody) 1 (snd (fst first)) in
  detection_counts (fst (fst first)) = [0%nat] /\
  detection_counts (fst (fst second)) = [1%nat].
Proof. vm_compute. split; reflexivity. Qed.

(** C1 (where the code departs from the claim). [main] selects YOLOv5n6u:
    the weights are fetched to models/best_YOLOv5n6u.pt and the model object
    built from that path is handed to [process_video]. The comparison of that
    object with the file name is false, so the frames come out at 640x360,
    not 1280x1280. Handing the file name itself selects 1280x1280, and then
    the first frame cannot be inferred on: a [str] is not callable. *)
Theorem yolov5n6u_frames_are_640x360 :
  fst (main_model_step Demo.os0 "YOLOv5n6u") = LoadModel "models/best_YOLOv5n6u.pt" /\
  ckpt_path Demo.yolov5 = "models/best_YOLOv5n6u.pt" /\
  select_size (PyYOLO Demo.yolov5) = (640, 360) /\
  frame_dimensions
    (fst (fst (process_video_default Demo.files Demo.video (PyYOLO Demo.yolov5) 0%nat)))
  = [(640, 360); (640, 360); (640, 360)] /\
  select_size (PyStr "best_YOLOv5n6u.pt" : PyVal nat) = (1280, 1280) /\
  fst (fst (process_video_default Demo.files Demo.video (PyStr "best_YOLOv5n6u.pt") 0%nat))
  = Err (TypeError "'str' object is not callable").
Proof. vm_compute. repeat split; reflexivity. Qed.

(** C3 (where the code departs from the claim). The model raises on the
    second frame of a three-frame video: [process_video] raises, and the
    capture it opened is not released. *)
Theorem inference_exception_skips_release :
  let run := process_video_default Demo.files Demo.video (PyYOLO Demo.flaky) 0%nat in
  fst (fst run) = Err (InferenceError "size mismatch") /\
  count is_open (snd run) = 1%nat /\
  count is_infer (snd run) = 2%nat /\
  count is_release (snd run) = 0%nat.
Proof. vm_compute. repeat split; reflexivity. Qed.

(** C4 (the claim as stated fails). A video that opens and has no readable
    frame: the result is empty and nothing is raised, but the loop body is
    entered once, [cap.read()] is called and fails. *)
Lemma empty_video_is_read_once :
  let run := process_video_default Demo.files "videos/empty.mp4" (PyYOLO Demo.yolov5) 0%nat in
  decodable Demo.files "videos/empty.mp4" = [] /\
  fst (fst run) = Ok [] /\
  snd run = [EvOpen "videos/empty.mp4" true; EvRead false; EvRelease] /\
  count is_read (snd run) <> 0%nat.
Proof. vm_compute. repeat split; try reflexivity. discriminate. Qed.

Lemma process_video_returns_min_frames_witness :
  well_behaved Demo.yolov5 /\
  exists out st' tr,
    process_video Demo.files Demo.video (PyYOLO Demo.yolov5) 2 0%nat = (Ok out, st', tr) /\
    length out = 2%nat /\
    Z.of_nat (length out) = 2 /\
    map picture out = [0%N; 1%N] /\
    pipeline_run Demo.yolov5 (640, 360) 0%nat
                 (firstn (length out) (decodable Demo.files Demo.video))
                 (Ok out) st' (inferences tr) /\
    process_video_default Demo.files Demo.video (PyYOLO Demo.yolov5)
    = process_video Demo.files Demo.video (PyYOLO Demo.yolov5) 100.
Proof.
  split; [apply stub_well_behaved|].
  destruct (process_video_returns_min_frames Demo.files Demo.video Demo.yolov5 2 0%nat
              (stub_well_behaved _))
    as (out & st' & tr & Hrun & Hlen & HlenZ & Hpic & Hall & Hdef).
  exists out, st', tr. rewrite Hlen in Hpic.
  split; [exact Hrun|]. split; [exact Hlen|]. split; [apply HlenZ; discriminate|].
  auto.
Defined.

Lemma process_video_nothing_to_decode_witness :
  decodable Demo.files "videos/notes.txt" = [] /\
  process_video Demo.files "videos/notes.txt" (PyYOLO Demo.yolov5) 100 0%nat
  = (Ok [], 0%nat, [EvOpen "videos/notes.txt" false; EvRelease]).
Proof.
  split; [reflexivity|].
  apply (process_video_nothing_to_decode Demo.files "videos/notes.txt"
           (PyYOLO Demo.yolov5) 100 0%nat).
  reflexivity.
Defined.

(** Two frames of the demo video: the stub is called on each, resized, from
    the states 0 and 1, and each image carries the rectangle and the label of
    the ball it returned. *)
Lemma process_video_draws_every_detection_witness :
  let drawn i :=
    mkImage 640 360 i
      [ Rectangle (10, 10) (50, 50) (0, 255, 0) 2;
        PutText "ball 0.90" (10, 0) FONT_HERSHEY_SIMPLEX (1 # 2) (0, 255, 0) 2 ] in
  pipeline_run Demo.yolov5 (640, 360) 0%nat [Demo.raw 0; Demo.raw 1]
    (Ok [drawn 0%N; drawn 1%N]) 2%nat
    [ (mkImage 640 360 0 [], 3 # 10, Ok [mkResults [Demo.ball]]);
      (mkImage 640 360 1 [], 3 # 10, Ok [mkResults [Demo.ball]]) ].
Proof.
  exact (process_video_draws_every_detection Demo.files Demo.video Demo.yolov5 2 0%nat).
Defined.

Lemma process_video_repeatable_witness :
  deterministic (PyYOLO Demo.yolov5) /\
  let first := process_video Demo.files Demo.video (PyYOLO Demo.yolov5) 2 0%nat in
  let second :=
    process_video Demo.files Demo.video (PyYOLO Demo.yolov5) 2 (snd (fst first)) in
  fst (fst first) = fst (fst second) /\
  frame_dimensions (fst (fst first)) = frame_dimensions (fst (fst second)) /\
  detection_counts (fst (fst first)) = detection_counts (fst (fst second)).
Proof.
  split; [apply stub_deterministic|].
  apply (process_video_repeatable Demo.files Demo.video (PyYOLO Demo.yolov5) 2 0%nat).
  apply stub_deterministic.
Defined.

(** ** The primitives on known values *)

Example sha256_abc :
  Sha256.hexdigest (str_encode "abc")
  = "ba7816bf8f01cfea414140de5dae2223b00361a396177a9cb410ff61f20015ad".
Proof. vm_compute. reflexivity. Qed.

Example sha256_empty :
  Sha256.hexdigest (str_encode "")
  = "e3b0c44298fc1c149afbf4c8996fb92427ae41e4649b934ca495991b7852b855".
Proof. vm_compute. reflexivity. Qed.

Example sha256_round_constants :
  length Sha256.K = 64%nat /\ nth 0 Sha256.K 0 = 0x428a2f98 /\
  nth 63 Sha256.K 0 = 0xc67178f2 /\ nth 0 Sha256.H0 0 = 0x6a09e667.
Proof. vm_compute. repeat split; reflexivity. Qed.

Example format_2f_values :
  format_2f (9 # 10) = "0.90" /\ format_2f (1 # 8) = "0.12" /\
  format_2f (3 # 8) = "0.38" /\ format_2f (999 # 1000) = "1.00" /\
  format_2f (12345 # 100) = "123.45".
Proof. vm_compute. repeat split; reflexivity. Qed.

Example py_int_truncates : py_int (7 # 2) = 3 /\ py_int (-7 # 2) = -3.
Proof. vm_compute. split; reflexivity. Qed.

Example os_path_join_values :
  os_path_join "models" "best_yolov8m.pt" = "models/best_yolov8m.pt" /\
  os_path_join "models" "/tmp/x.pt" = "/tmp/x.pt".
Proof. vm_compute. split; reflexivity. Qed.

Example os_path_dirname_values :
  os_path_dirname "models/best.pt" = "models" /\ os_path_dirname "best.pt" = "" /\
  os_path_dirname "/best.pt" = "/" /\ os_path_dirname "a//b" = "a".
Proof. vm_compute. repeat split; reflexivity. Qed.

Example os_path_normpath_values :
  os_path_normpath "models/../../blobs/x" = "../blobs/x" /\
  os_path_normpath "/hub/snapshots/main/../../blobs/x" = "/hub/blobs/x" /\
  os_path_normpath "/../a//b/./" = "/a/b" /\ os_path_normpath "" = ".".
Proof. vm_compute. repeat split; reflexivity. Qed.

(** A relative link is read from where it is: the link of the hub cache
    leads to the blob from the snapshot directory, and nowhere from
    [models]. *)
Example follow_values :
  let blob := "/hub/blobs/x" in
  let cached : gmap string FileData :=
    {[ blob := DataFile []; "/hub/snapshots/main/x.pt" := Symlink "../../blobs/x" ]} in
  let moved : gmap string FileData :=
    {[ blob := DataFile []; "models/x.pt" := Symlink "../../blobs/x" ]} in
  follow MAXSYMLINKS cached "/hub/snapshots/main/x.pt" = Some (DataFile []) /\
  follow MAXSYMLINKS moved "models/x.pt" = None /\
  follow MAXSYMLINKS ({[ "loop" := Symlink "loop" ]} : gmap string FileData) "loop" = None.
Proof. vm_compute. repeat split; reflexivity. Qed.

Example float_int_values :
  float_int (Finite (-7 # 2)) = Ok (-3) /\ is_ok (float_int NaN) = false /\
  is_ok (float_int (Infinity true)) = false /\
  c_int 2147483647 = true /\ c_int 2147483648 = false /\ c_int (-2147483648) = true.
Proof. vm_compute. repeat split; reflexivity. Qed.

(** ** The credential store *)

Lemma USERS_lookup username stored :
  USERS !! username = Some stored <->
  username = "demo" /\ stored = hash_password "yolo2024".
Proof.
  unfold USERS. rewrite lookup_singleton_Some. split; intros [H1 H2]; auto.
Qed.

(** C9 (amended). The credential store is a fixed mapping, never written
    by the program, from the one username to the SHA-256 digest, unsalted, of
    its password; [authenticate] returns true exactly when the username is in
    the mapping and the digest of the supplied password equals the stored
    one. *)
Theorem authenticate_iff_stored_digest username password :
  (authenticate username password = true <->
   exists stored, USERS !! username = Some stored /\ stored = hash_password password) /\
  (forall stored, USERS !! username = Some stored ->
     username = "demo" /\ stored = Sha256.hexdigest (str_encode "yolo2024")) /\
  hash_password password = Sha256.hexdigest (str_encode password).
Proof.
  split; [|split; [|reflexivity]].
  - unfold authenticate. destruct (USERS !! username) as [stored|].
    + rewrite String.eqb_eq. split.
      * intros ->. eauto.
      * intros (stored' & [= <-] & ->). reflexivity.
    + split; [discriminate|]. intros (stored' & [=] & _).
  - intros stored Hin. apply USERS_lookup in Hin as [-> ->]. auto.
Qed.

Lemma authenticate_iff_stored_digest_witness :
  authenticate "demo" "yolo2024" = true /\ authenticate "demo" "yolo2025" = false.
Proof.
  split.
  - apply (proj1 (authenticate_iff_stored_digest "demo" "yolo2024")).
    exists (hash_password "yolo2024"). split; reflexivity.
  - vm_compute. reflexivity.
Defined.

(** C9 (the claim as stated fails). The secret stored for demo is the
    SHA-256 digest of the bytes of yolo2024 and of nothing else: no salt
    entered it. *)
Lemma demo_secret_is_not_salted :
  USERS !! "demo"
  = Some "ba1d4f6656305fc257be6aa28b366819dfe5e02134616065de57908a74c21055" /\
  ~ salted_secret "ba1d4f6656305fc257be6aa28b366819dfe5e02134616065de57908a74c21055"
                  "yolo2024".
Proof.
  split; [vm_compute; reflexivity|].
  unfold salted_secret. intros Hsalted. apply Hsalted. vm_compute. reflexivity.
Qed.

(** ** The asset fetcher *)

Lemma os_path_exists_nonempty w path : os_path_exists w path = true -> path <> "".
Proof.
  unfold os_path_exists. destruct (String.eqb_spec path "") as [->|Hne];
    [discriminate|auto].
Qed.

Lemma truthy_nonempty s : truthy s = true <-> s <> "".
Proof. destruct s; simpl; split; congruence. Qed.

Lemma descargar_cached w repo_id filename save_path :
  os_path_exists w save_path = true ->
  descargar_archivo_hf w repo_id filename save_path = (Ok save_path, w).
Proof. intros H. unfold descargar_archivo_hf. rewrite H. reflexivity. Qed.

(** The ways through [descargar_archivo_hf]: the file is there; or it is
    not, and the hub does not serve it, or one of the paths of the move is
    empty, or the path the hub client returned holds nothing, or the file
    system refuses the move, or the move is made. *)
Ltac fetch_cases w repo_id filename save_path :=
  unfold descargar_archivo_hf;
  destruct (os_path_exists w save_path) eqn:Hex; cbn [negb];
  [|unfold hf_hub_download;
    cbn [hub st_show fs hf_cache hf_writes rename_error downloads ui];
    destruct (hub w !! (repo_id, filename)) as [data|] eqn:Hhub;
    [unfold os_rename;
     cbn [fs set_fs hub hf_cache hf_writes rename_error downloads ui];
     destruct (String.eqb_spec (hf_cache w repo_id filename) "") as [Hc|Hc];
     [|destruct (String.eqb_spec save_path "") as [Hs|Hs];
       [|destruct (write_all (hf_writes w repo_id filename data) (fs w)
                     !! hf_cache w repo_id filename) as [node|] eqn:Hnode;
         [destruct (rename_error w (hf_cache w repo_id filename) save_path)
            as [refusal|] eqn:Hrefused|]]]|]];
  cbn [fst snd is_ok fs set_fs st_show hub hf_cache hf_writes rename_error
       downloads ui].

(** A call that returns, returns [save_path], which is not empty. *)
Lemma descargar_returned w repo_id filename save_path p :
  fst (descargar_archivo_hf w repo_id filename save_path) = Ok p ->
  p = save_path /\ save_path <> "".
Proof.
  fetch_cases w repo_id filename save_path; try discriminate.
  - intros [= <-]. split; [reflexivity|].
    apply (os_path_exists_nonempty w). exact Hex.
  - intros [= <-]. auto.
Qed.

(** A file that is not there, when the hub client delivers it and the move
    is made, is at [save_path] as the client left it in its cache. *)
Lemma descargar_fetched w repo_id filename save_path archivo_path w1 w2 :
  os_path_exists w save_path = false ->
  hf_hub_download
    (st_show w (StInfo ("Descargando " ++ filename ++ " desde Hugging Face...")%string))
    repo_id filename = (Ok archivo_path, w1) ->
  os_rename w1 archivo_path save_path = (Ok tt, w2) ->
  descargar_archivo_hf w repo_id filename save_path
  = (Ok save_path,
     st_show w2 (StSuccess (filename ++ " descargado correctamente!")%string)).
Proof.
  intros Hex Hhub Hmove. unfold descargar_archivo_hf.
  rewrite Hex. cbn [negb]. rewrite Hhub, Hmove. reflexivity.
Qed.

(** One call downloads at most once, and only a file that is not there. *)
Lemma descargar_downloads w repo_id filename save_path :
  downloads (snd (descargar_archivo_hf w repo_id filename save_path))
  = downloads w
      ++ (if os_path_exists w save_path then []
          else match hub w !! (repo_id, filename) with
               | Some _ => [(repo_id, filename)]
               | None => []
               end).
Proof.
  fetch_cases w repo_id filename save_path;
    try reflexivity; rewrite app_nil_r; reflexivity.
Qed.


(** C8 (where the code departs from the claim). The cache of the hub client
    as it is where links are supported. The weights are not at
    models/best_YOLOv5n6u.pt: the first call downloads them and returns
    that path, but what it moved there is the relative link the client
    returned, which from its new place leads nowhere; the blob stayed in the
    cache. So there is still no file at the path, and the second call with
    the same arguments asks the hub again, and so does every later one. *)
Theorem descargar_moves_dangling_link :
  let save_path := "models/best_YOLOv5n6u.pt" in
  let first := descargar_archivo_hf Demo.linux HF_REPO_ID "best_YOLOv5n6u.pt" save_path in
  let second := descargar_archivo_hf (snd first) HF_REPO_ID "best_YOLOv5n6u.pt" save_path in
  os_path_exists Demo.linux save_path = false /\
  fst first = Ok save_path /\
  downloads (snd first) = [(HF_REPO_ID, "best_YOLOv5n6u.pt")] /\
  fs (snd first) !! save_path = Some (Symlink "../../blobs/best_YOLOv5n6u.pt") /\
  link_destination save_path "../../blobs/best_YOLOv5n6u.pt" = "../blobs/best_YOLOv5n6u.pt" /\
  fs (snd first)
    !! "/home/app/.cache/huggingface/hub/models--Marxx01--yolo_basket/blobs/best_YOLOv5n6u.pt"
  = Some (DataFile []) /\
  os_path_exists (snd first) save_path = false /\
  fst second = Ok save_path /\
  downloads (snd second)
  = [(HF_REPO_ID, "best_YOLOv5n6u.pt"); (HF_REPO_ID, "best_YOLOv5n6u.pt")] /\
  os_path_exists (snd second) save_path = false /\
  length (downloads (fetch_again 5 Demo.linux HF_REPO_ID "best_YOLOv5n6u.pt" save_path))
  = 5%nat.
Proof. vm_compute. repeat split; reflexivity. Qed.

(** Where the client's cache holds the files themselves the same two calls
    download once. *)
Example descargar_twice_plain_cache :
  let save_path := "models/best_YOLOv5n6u.pt" in
  let first := descargar_archivo_hf Demo.os0 HF_REPO_ID "best_YOLOv5n6u.pt" save_path in
  let second := descargar_archivo_hf (snd first) HF_REPO_ID "best_YOLOv5n6u.pt" save_path in
  fst first = Ok save_path /\
  os_path_exists (snd first) save_path = true /\
  second = (Ok save_path, snd first) /\
  downloads (snd second) = [(HF_REPO_ID, "best_YOLOv5n6u.pt")].
Proof. vm_compute. repeat split; reflexivity. Qed.

(** Where the directory of [save_path] is missing the download is made and
    the move raises. *)
Example descargar_missing_directory :
  let save_path := "models/best_YOLOv5n6u.pt" in
  let run := descargar_archivo_hf Demo.no_models_dir HF_REPO_ID "best_YOLOv5n6u.pt" save_path in
  fst run = Err (FileNotFoundError save_path) /\
  downloads (snd run) = [(HF_REPO_ID, "best_YOLOv5n6u.pt")] /\
  ui (snd run) = [StInfo "Descargando best_YOLOv5n6u.pt desde Hugging Face..."].
Proof. vm_compute. repeat split; reflexivity. Qed.

Lemma os_path_join_models filename : os_path_join "models" filename <> "".
Proof.
  unfold os_path_join. destruct filename as [|c rest]; [discriminate|].
  simpl. destruct (Ascii.eqb c "/"); discriminate.
Qed.

(** C10. [descargar_archivo_hf] returns nothing but its [save_path]
    argument, and that only when it is not empty: it returns it when the file
    is there, and when it is not and the hub client delivers the artifact and
    the move of what it delivered to [save_path] is made; otherwise it
    raises. In [main] the path is never empty, so the branch taken on a falsy
    return is never reached. *)
Theorem descargar_returns_save_path w repo_id filename save_path :
  let run := descargar_archivo_hf w repo_id filename save_path in
  (forall p, fst run = Ok p -> p = save_path /\ p <> "" /\ truthy p = true) /\
  (os_path_exists w save_path = true -> fst run = Ok save_path) /\
  (os_path_exists w save_path = false ->
   forall archivo_path w1 w2,
   hf_hub_download
     (st_show w (StInfo ("Descargando " ++ filename ++ " desde Hugging Face...")%string))
     repo_id filename = (Ok archivo_path, w1) ->
   os_rename w1 archivo_path save_path = (Ok tt, w2) ->
   fst run = Ok save_path) /\
  (forall modelo_seleccionado, fst (main_model_step w modelo_seleccionado) <> EarlyReturn).
Proof.
  cbv zeta. split; [|split; [|split]].
  - intros p Hok. apply descargar_returned in Hok as [-> Hne].
    split; [reflexivity|]. split; [exact Hne|]. apply truthy_nonempty. exact Hne.
  - intros Hex. rewrite descargar_cached by exact Hex. reflexivity.
  - intros Hex archivo_path w1 w2 Hhub Hmove.
    rewrite (descargar_fetched _ _ _ _ _ _ _ Hex Hhub Hmove). reflexivity.
  - intros sel. unfold main_model_step.
    destruct (dict_get MODELOS_HF sel) as [file|e]; [|discriminate].
    pose proof (descargar_returned w HF_REPO_ID file (os_path_join "models" file)) as Hret.
    destruct (descargar_archivo_hf w HF_REPO_ID file (os_path_join "models" file))
      as [[p|e] w1]; [|discriminate].
    destruct (Hret p eq_refl) as [-> _].
    destruct (truthy (os_path_join "models" file)) eqn:Htruthy; [discriminate|].
    exfalso. apply (os_path_join_models file). destruct (os_path_join "models" file);
      [reflexivity|discriminate].
Qed.

(** The video that is there is returned as it is; the weights that are not
    are returned once downloaded and moved; and [main] goes on to load. *)
Lemma descargar_returns_save_path_witness :
  os_path_exists Demo.os0 Demo.video = true /\
  fst (descargar_archivo_hf Demo.os0 HF_REPO_ID "modelo_test_video.mp4" Demo.video)
  = Ok Demo.video /\
  os_path_exists Demo.os0 "models/best_YOLOv5n6u.pt" = false /\
  fst (descargar_archivo_hf Demo.os0 HF_REPO_ID "best_YOLOv5n6u.pt"
         "models/best_YOLOv5n6u.pt")
  = Ok "models/best_YOLOv5n6u.pt" /\
  fst (main_model_step Demo.os0 "YOLOv5n6u") <> EarlyReturn.
Proof.
  destruct (descargar_returns_save_path Demo.os0 HF_REPO_ID "modelo_test_video.mp4"
              Demo.video) as (_ & Hcached & _ & Hmain).
  destruct (descargar_returns_save_path Demo.os0 HF_REPO_ID "best_YOLOv5n6u.pt"
              "models/best_YOLOv5n6u.pt") as (_ & _ & Hfetched & _).
  split; [reflexivity|]. split; [apply Hcached; reflexivity|].
  split; [reflexivity|]. split; [|apply Hmain].
  destruct (hf_hub_download
              (st_show Demo.os0
                 (StInfo "Descargando best_YOLOv5n6u.pt desde Hugging Face..."))
              HF_REPO_ID "best_YOLOv5n6u.pt") as [[archivo_path|e] w1] eqn:Hhub;
    [|vm_compute in Hhub; discriminate].
  destruct (os_rename w1 archivo_path "models/best_YOLOv5n6u.pt") as [[[]|e] w2] eqn:Hmove.
  - exact (Hfetched eq_refl archivo_path w1 w2 Hhub Hmove).
  - vm_compute in Hhub. injection Hhub as <- <-. vm_compute in Hmove. discriminate.
Defined.

(** * Further properties of the code *)

(** ** The pipeline: caps, calls and failures *)

Section PipelineMore.

Context {MState : Type}.
Implicit Types (model : PyVal MState) (m : YOLO MState) (st : MState).

(** A run of the loop that returns only adds to the images it was given. *)
Lemma frame_loop_extends model size max_frames o pend :
  forall fc processed st out st' tr,
  frame_loop model size max_frames o pend fc processed st = (Ok out, st', tr) ->
  exists new, out = processed ++ new.
Proof.
  induction pend as [|raw rest IH]; intros fc processed st out st' tr Hrun.
  - exists []. rewrite app_nil_r.
    destruct (o && (fc <? max_frames)) eqn:Hc.
    + rewrite frame_loop_eof in Hrun by exact Hc. congruence.
    + rewrite frame_loop_done in Hrun by exact Hc. congruence.
  - destruct (o && (fc <? max_frames)) eqn:Hc.
    + rewrite frame_loop_step in Hrun by exact Hc.
      destruct (process_frame model size raw st) as [[[frame|e] st1] tr1]; [|discriminate].
      destruct (frame_loop model size max_frames o rest (fc + 1) (processed ++ [frame]) st1)
        as [[r st2] tr2] eqn:Hrest.
      injection Hrun as -> <- <-.
      destruct (IH _ _ _ _ _ _ Hrest) as [new ->].
      exists (frame :: new). rewrite <- app_assoc. reflexivity.
    + rewrite frame_loop_done in Hrun by exact Hc. exists []. rewrite app_nil_r. congruence.
Qed.

Lemma frame_loop_cap_prefix model size cap1 cap2 o pend :
  cap1 <= cap2 ->
  forall fc processed st out2 st2 tr2,
  frame_loop model size cap2 o pend fc processed st = (Ok out2, st2, tr2) ->
  exists st1 tr1,
    frame_loop model size cap1 o pend fc processed st
    = (Ok (firstn (length processed + Z.to_nat (cap1 - fc)) out2), st1, tr1).
Proof.
  intros Hle. induction pend as [|raw rest IH]; intros fc processed st out2 st2 tr2 Hrun.
  - assert (Hout : out2 = processed).
    { destruct (o && (fc <? cap2)) eqn:Hc.
      - rewrite frame_loop_eof in Hrun by exact Hc. congruence.
      - rewrite frame_loop_done in Hrun by exact Hc. congruence. }
    subst out2. rewrite firstn_all2 by lia.
    destruct (o && (fc <? cap1)) eqn:Hc.
    + rewrite frame_loop_eof by exact Hc. eauto.
    + rewrite frame_loop_done by exact Hc. eauto.
  - destruct (o && (fc <? cap1)) eqn:Hc1.
    + assert (Hc2 : o && (fc <? cap2) = true).
      { apply andb_true_iff in Hc1 as [-> Hlt]. apply Z.ltb_lt in Hlt.
        simpl. apply Z.ltb_lt. lia. }
      rewrite frame_loop_step in Hrun by exact Hc2.
      rewrite frame_loop_step by exact Hc1.
      destruct (process_frame model size raw st) as [[[frame|e] st1] tr1]; [|discriminate].
      destruct (frame_loop model size cap2 o rest (fc + 1) (processed ++ [frame]) st1)
        as [[r st2'] tr2'] eqn:Hrest.
      injection Hrun as -> <- <-.
      destruct (IH _ _ _ _ _ _ Hrest) as (st1' & tr1' & ->).
      apply andb_true_iff in Hc1 as [_ Hlt]. apply Z.ltb_lt in Hlt.
      rewrite length_app. simpl.
      replace (length processed + 1 + Z.to_nat (cap1 - (fc + 1)))%nat
        with (length processed + Z.to_nat (cap1 - fc))%nat by lia.
      eauto.
    + rewrite frame_loop_done by exact Hc1.
      destruct (frame_loop_extends _ _ _ _ _ _ _ _ _ _ _ Hrun) as [new ->].
      destruct o.
      * simpl in Hc1. apply Z.ltb_ge in Hc1.
        replace (Z.to_nat (cap1 - fc)) with 0%nat by lia.
        rewrite Nat.add_0_r, firstn_app, firstn_all, Nat.sub_diag. simpl.
        rewrite app_nil_r. eauto.
      * rewrite frame_loop_done in Hrun by reflexivity.
        injection Hrun as Hout _ _. rewrite <- Hout.
        rewrite firstn_all2 by lia. eauto.
Qed.

(** X3. Lowering the cap cuts the result and changes nothing else: when a
    call with cap M2 returns, the call with a cap M1 <= M2 on the same video,
    with the model in the same state, returns the first M1 images of that
    result. *)
Theorem process_video_smaller_cap
    files video_path model cap1 cap2 st out2 st2 tr2 :
  cap1 <= cap2 ->
  process_video files video_path model cap2 st = (Ok out2, st2, tr2) ->
  exists st1 tr1,
    process_video files video_path model cap1 st
    = (Ok (firstn (Z.to_nat cap1) out2), st1, tr1).
Proof.
  intros Hle. rewrite !process_video_unfold. cbv zeta.
  destruct (frame_loop model (select_size model) cap2
              (opened (cv2_VideoCapture files video_path))
              (pending (cv2_VideoCapture files video_path)) 0 [] st)
    as [[[out|e] s2] t2] eqn:Hloop; [|discriminate].
  intros [= -> <- <-].
  destruct (frame_loop_cap_prefix _ _ _ _ _ _ Hle _ _ _ _ _ _ Hloop) as (st1 & tr1 & ->).
  simpl. rewrite Z.sub_0_r. eauto.
Qed.

Lemma count_cons (p : Event -> bool) ev tr :
  count p (ev :: tr) = ((if p ev then 1 else 0) + count p tr)%nat.
Proof. unfold count. simpl. destruct (p ev); reflexivity. Qed.

(** The events of the loop: each iteration that reaches the model reads a
    frame and calls the model, in that order, and nothing comes between two
    iterations; after the last there is at most the one read that finds the
    video exhausted. There are never more iterations than frames pending or
    than the cap leaves room for. *)
Lemma frame_loop_shape model size max_frames o pend : forall fc processed st,
  let tr := snd (frame_loop model size max_frames o pend fc processed st) in
  exists ending,
    tr = flat_map read_and_call (inferences tr) ++ ending /\
    (ending = [] \/ ending = [EvRead false]) /\
    (length (inferences tr) <= Nat.min (length pend) (Z.to_nat (max_frames - fc)))%nat.
Proof.
  induction pend as [|raw rest IH]; intros fc processed st; cbv zeta.
  - destruct (o && (fc <? max_frames)) eqn:Hc.
    + rewrite frame_loop_eof by exact Hc. exists [EvRead false].
      split; [reflexivity|]. split; [auto|]. cbn. lia.
    + rewrite frame_loop_done by exact Hc. exists [].
      split; [reflexivity|]. split; [auto|]. cbn. lia.
  - destruct (o && (fc <? max_frames)) eqn:Hc.
    + rewrite frame_loop_step by exact Hc.
      apply andb_true_iff in Hc as [_ Hlt]. apply Z.ltb_lt in Hlt.
      destruct (process_frame_trace model size raw st) as [outcome Htr].
      destruct (process_frame model size raw st) as [[[frame|e] st1] tr1];
        cbn [snd] in Htr; subst tr1.
      * specialize (IH (fc + 1) (processed ++ [frame]) st1). cbv zeta in IH.
        destruct (frame_loop model size max_frames o rest (fc + 1)
                    (processed ++ [frame]) st1) as [[r st2] tr2].
        cbn [snd] in *. destruct IH as (ending & Htr & Hending & Hlen).
        exists ending. cbn [app inferences flat_map read_and_call length].
        split; [|split; [exact Hending|]].
        -- do 2 f_equal. exact Htr.
        -- unfold inferences in Hlen. lia.
      * exists []. cbn [snd app inferences flat_map read_and_call length].
        split; [reflexivity|]. split; [auto|]. lia.
    + rewrite frame_loop_done by exact Hc. exists [].
      split; [reflexivity|]. split; [auto|]. cbn. lia.
Qed.

Lemma count_read_and_call calls :
  count is_infer (flat_map read_and_call calls) = length calls /\
  count is_frame_read (flat_map read_and_call calls) = length calls /\
  count is_failed_read (flat_map read_and_call calls) = 0%nat /\
  count is_read (flat_map read_and_call calls) = length calls.
Proof.
  induction calls as [|[[frame c] outcome] calls (Hi & Hf & Hn & Hr)];
    [repeat split; reflexivity|].
  cbn [flat_map read_and_call app]. rewrite !count_cons, Hi, Hf, Hn, Hr.
  repeat split; reflexivity.
Qed.

(** X4. Whatever the model does, and whether the call returns or raises,
    [process_video] calls the model exactly once for each frame it read, right
    after reading it, at most min(N, max_frames) times; besides these reads
    there is at most one, the last, which finds the video exhausted. Nothing
    else happens between the opening of the capture and its release. *)
Theorem process_video_call_bounds files video_path model max_frames st :
  let run := process_video files video_path model max_frames st in
  let tr := snd run in
  count is_infer tr = count is_frame_read tr /\
  (count is_infer tr
   <= Nat.min (length (decodable files video_path)) (Z.to_nat max_frames))%nat /\
  (count is_failed_read tr <= 1)%nat /\
  count is_read tr = (count is_frame_read tr + count is_failed_read tr)%nat /\
  exists ending,
    tr = EvOpen video_path (opened (cv2_VideoCapture files video_path))
           :: flat_map read_and_call (inferences tr) ++ ending
           ++ (if is_ok (fst (fst run)) then [EvRelease] else []) /\
    (ending = [] \/ ending = [EvRead false]).
Proof.
  cbv zeta. rewrite process_video_unfold. cbv zeta.
  pose proof (frame_loop_shape model (select_size model) max_frames
                (opened (cv2_VideoCapture files video_path))
                (pending (cv2_VideoCapture files video_path)) 0 [] st) as H.
  cbv zeta in H. rewrite Z.sub_0_r in H. unfold decodable.
  destruct (frame_loop model (select_size model) max_frames
              (opened (cv2_VideoCapture files video_path))
              (pending (cv2_VideoCapture files video_path)) 0 [] st)
    as [[r st1] tr1].
  cbn [snd] in H. destruct H as (ending & Htr & Hending & Hlen).
  set (calls := inferences tr1) in *.
  assert (Hcalls : forall tail,
            Forall (fun ev => is_infer ev = false) tail ->
            inferences (EvOpen video_path (opened (cv2_VideoCapture files video_path))
                          :: tr1 ++ tail) = calls).
  { intros tail Htail. unfold calls, inferences. cbn [flat_map app].
    rewrite flat_map_app.
    replace (flat_map _ tail) with (@nil (Image * Q * result (list Results)));
      [apply app_nil_r|].
    induction Htail as [|ev tail Hev _ IH]; [reflexivity|].
    destruct ev; try discriminate; exact IH. }
  destruct (count_read_and_call calls) as (Hi & Hf & Hn & Hr).
  assert (Hshape : forall tail,
            Forall (fun ev => is_infer ev = false) tail ->
            let tr := EvOpen video_path (opened (cv2_VideoCapture files video_path))
                        :: tr1 ++ tail in
            count is_infer tr = length calls /\
            count is_frame_read tr = (length calls + count is_frame_read tail)%nat /\
            count is_failed_read tr
            = (count is_failed_read ending + count is_failed_read tail)%nat /\
            count is_read tr
            = (length calls + count is_read ending + count is_read tail)%nat).
  { intros tail Htail. cbv zeta. rewrite Htr.
    rewrite !count_cons, !count_app, Hi, Hf, Hn, Hr. cbn [is_infer is_frame_read
      is_failed_read is_read].
    rewrite (count_none is_infer tail) by exact Htail.
    destruct Hending as [-> | ->]; repeat split; unfold count;
      cbn [List.filter length is_infer is_frame_read is_failed_read is_read]; lia. }
  destruct r as [out|e]; cbn [fst snd is_ok].
  - destruct (Hshape [EvRelease]) as (Ci & Cf & Cn & Cr); [repeat constructor|].
    rewrite Hcalls by repeat constructor. rewrite Ci, Cf, Cn, Cr.
    split; [cbn; lia|]. split; [exact Hlen|].
    split; [destruct Hending as [-> | ->]; cbn; lia|].
    split; [destruct Hending as [-> | ->]; cbn; lia|].
    exists ending. split; [|exact Hending].
    rewrite Htr at 1. rewrite <- !app_assoc. reflexivity.
  - destruct (Hshape []) as (Ci & Cf & Cn & Cr); [constructor|].
    rewrite app_nil_r in Ci, Cf, Cn, Cr.
    pose proof (Hcalls [] ltac:(constructor)) as Hc0. rewrite app_nil_r in Hc0.
    rewrite Hc0, Ci, Cf, Cn, Cr.
    split; [cbn; lia|]. split; [exact Hlen|].
    split; [destruct Hending as [-> | ->]; cbn; lia|].
    split; [destruct Hending as [-> | ->]; cbn; lia|].
    exists ending. split; [|exact Hending].
    rewrite Htr at 1. rewrite !app_nil_r. reflexivity.
Qed.

Lemma box_outcome_error class_names box e :
  box_outcome class_names box = Err e -> drawing_error e.
Proof.
  unfold box_outcome, float_int. destruct (xyxy box) as [[[a b] c] d].
  destruct a; cbn [and_then]; try (intros [= <-]; exact I).
  destruct b; cbn [and_then]; try (intros [= <-]; exact I).
  destruct c; cbn [and_then]; try (intros [= <-]; exact I).
  destruct d; cbn [and_then]; try (intros [= <-]; exact I).
  destruct (cls box); cbn [and_then]; try (intros [= <-]; exact I).
  match goal with |- context [class_names !! ?k] => destruct (class_names !! k) end;
    [|intros [= <-]; exact I].
  match goal with |- context [negb ?c] => destruct (negb c) end;
    [intros [= <-]; exact I|].
  match goal with |- context [negb ?c] => destruct (negb c) end;
    [intros [= <-]; exact I|discriminate].
Qed.

(** A run of the loop that raises: the last thing it did was the call of
    the model that made it raise; the model is left in the state that call
    left, and the exception is the call's own or that of the first box it
    returned that cannot be drawn. *)
Lemma frame_loop_raises m size max_frames o pend :
  forall fc processed st e st' tr,
  frame_loop (PyYOLO m) size max_frames o pend fc processed st = (Err e, st', tr) ->
  exists st0 raw outcome,
    In raw pend /\
    last tr = Some (EvInfer (cv2_resize raw size) (3 # 10) outcome) /\
    predict m st0 (cv2_resize raw size) (3 # 10) = (outcome, st') /\
    caused_by m outcome e.
Proof.
  induction pend as [|raw rest IH]; intros fc processed st e st' tr Hrun.
  - destruct (o && (fc <? max_frames)) eqn:Hc.
    + rewrite frame_loop_eof in Hrun by exact Hc. discriminate.
    + rewrite frame_loop_done in Hrun by exact Hc. discriminate.
  - destruct (o && (fc <? max_frames)) eqn:Hc;
      [|rewrite frame_loop_done in Hrun by exact Hc; discriminate].
    rewrite frame_loop_step in Hrun by exact Hc.
    rewrite process_frame_yolo in Hrun. cbv zeta in Hrun.
    unfold conf_threshold in Hrun.
    destruct (predict m st (cv2_resize raw size) (3 # 10))
      as [[results|e1] st1] eqn:Hcall.
    + rewrite draw_results_outcome in Hrun.
      destruct (overlays_of (names m) (detections results)) as [ops|e1] eqn:Hops.
      * destruct (frame_loop (PyYOLO m) size max_frames o rest (fc + 1)
                    (processed ++ [draw (cv2_resize raw size) ops]) st1)
          as [[r st2] tr2] eqn:Hrest.
        injection Hrun as -> <- <-.
        destruct (IH _ _ _ _ _ _ Hrest)
          as (st0 & raw0 & outcome & Hin & Hlast & Hpred & Hcause).
        exists st0, raw0, outcome. split; [right; exact Hin|].
        split; [|auto]. cbn [app]. rewrite !last_cons, Hlast. reflexivity.
      * injection Hrun as <- <- <-.
        exists st, raw, (Ok results).
        split; [left; reflexivity|]. split; [reflexivity|]. split; [exact Hcall|].
        right. destruct (overlays_of_raises _ _ _ Hops)
          as (pre & box & post & Hdet & Hpre & Hbox).
        exists results, pre, box, post. auto.
    + injection Hrun as <- <- <-.
      exists st, raw, (Err e1).
      split; [left; reflexivity|]. split; [reflexivity|]. split; [exact Hcall|].
      left. reflexivity.
Qed.

(** X5. When [process_video] raises with a model object, the last thing it
    did was a call of the model on a frame of the video, resized, and the
    exception comes of that call: either the model raised it, or it is the
    exception of the first box the call returned that cannot be drawn, one of
    [ValueError] and [OverflowError] (a corner or class index that is NaN or
    infinite), [KeyError] (a class index that is not in [model.names]) and
    [cv2.error] (a corner outside the C integers). The model is left in the
    state that call left. Nothing is returned: the frames annotated before
    are lost. *)
Theorem process_video_raises files video_path m max_frames st e st' tr :
  process_video files video_path (PyYOLO m) max_frames st = (Err e, st', tr) ->
  exists st0 raw outcome,
    In raw (decodable files video_path) /\
    last tr = Some (EvInfer (cv2_resize raw (640, 360)) (3 # 10) outcome) /\
    predict m st0 (cv2_resize raw (640, 360)) (3 # 10) = (outcome, st') /\
    (outcome = Err e \/
     exists results pre box post,
       outcome = Ok results /\
       detections results = pre ++ box :: post /\
       Forall (drawable (names m)) pre /\
       box_outcome (names m) box = Err e /\
       drawing_error e).
Proof.
  rewrite process_video_unfold. cbv zeta.
  change (select_size (PyYOLO m)) with (640, 360).
  destruct (frame_loop (PyYOLO m) (640, 360) max_frames
              (opened (cv2_VideoCapture files video_path))
              (pending (cv2_VideoCapture files video_path)) 0 [] st)
    as [[[out|e1] st1] tr1] eqn:Hloop; [discriminate|].
  intros [= <- <- <-].
  destruct (frame_loop_raises _ _ _ _ _ _ _ _ _ _ _ Hloop)
    as (st0 & raw & outcome & Hin & Hlast & Hpred & Hcause).
  exists st0, raw, outcome. split; [exact Hin|].
  split; [rewrite last_cons, Hlast; reflexivity|]. split; [exact Hpred|].
  destruct Hcause as [Hmodel|(results & pre & box & post & Ho & Hd & Hpre & Hbox)];
    [left; exact Hmodel|right].
  exists results, pre, box, post. repeat split; auto.
  apply (box_outcome_error _ _ _ Hbox).
Qed.

(** X6. On frames that come from the decoder without drawings, every image
    [process_video] returns carries exactly two overlays for each box the
    model returned for it, a rectangle and a label: the number of rectangles
    on an image is the number of detections of its frame. *)
Theorem process_video_overlays_per_detection
    files video_path m max_frames st out st' tr :
  Forall (fun raw => overlay raw = []) (decodable files video_path) ->
  process_video files video_path (PyYOLO m) max_frames st = (Ok out, st', tr) ->
  Forall2 (fun call img =>
             exists results,
               snd call = Ok results /\
               detection_count img = length (detections results) /\
               length (overlay img) = (2 * length (detections results))%nat)
          (inferences tr) out.
Proof.
  intros Hraw Hrun. apply process_video_returns in Hrun as [_ Hall].
  apply (pipeline_run_overlays _ _ _ _ _ _ _ Hall).
  apply Forall_take. exact Hraw.
Qed.

End PipelineMore.

(** ** The asset fetcher: failures, messages, other files *)



(** X9. What the fetcher tells the user: nothing when the file is already
    there; otherwise the notice that it is downloading, followed by the
    success message exactly when the call returned, so that the success
    message is never shown for a download or a move that failed. *)
Theorem descargar_messages w repo_id filename save_path :
  let run := descargar_archivo_hf w repo_id filename save_path in
  ui (snd run)
  = ui w ++
    (if os_path_exists w save_path then []
     else StInfo ("Descargando " ++ filename ++ " desde Hugging Face...")%string
          :: (if is_ok (fst run)
              then [StSuccess (filename ++ " descargado correctamente!")%string]
              else [])).
Proof.
  cbv zeta. fetch_cases w repo_id filename save_path; try reflexivity.
  - rewrite app_nil_r. reflexivity.
  - rewrite <- app_assoc. reflexivity.
Qed.

(** ** The page *)

Section PageFacts.

Context {MState : Type}.
Variable YOLO_load : gmap string FileData -> string -> result (YOLO MState * MState).

(** A run of [main] for a session that is not logged in. *)
Lemma main_locked ss wd w :
  ss !! "logged_in" <> Some true ->
  let ss0 := match ss !! "logged_in" with
             | None => <["logged_in" := false]> ss
             | Some _ => ss
             end in
  main YOLO_load ss wd w =
  if w_login wd then
    if authenticate (w_username wd) (w_password wd) then
      mkRun Return (<["logged_in" := true]> ss0) w
            [UiTitle "🏀 Basketball YOLO Detection"; UiHeader "Login";
             UiSuccess "Inicio de sesión exitoso"] []
    else mkRun Return ss0 w
               [UiTitle "🏀 Basketball YOLO Detection"; UiHeader "Login";
                UiError "Credenciales incorrectas"] []
  else mkRun Return ss0 w [UiTitle "🏀 Basketball YOLO Detection"; UiHeader "Login"] [].
Proof.
  intros Hlocked. cbv zeta. unfold main.
  destruct (ss !! "logged_in") as [[|]|] eqn:Hss; [congruence| |].
  - rewrite Hss. reflexivity.
  - rewrite lookup_insert_eq. reflexivity.
Qed.

(** A run of [main] for a session that is logged in. *)
Lemma main_unlocked ss wd w :
  ss !! "logged_in" = Some true ->
  main YOLO_load ss wd w =
  (let out := [UiTitle "🏀 Basketball YOLO Detection";
               UiSidebarHeader "Configuración de Detección"] in
   match main_model_step w (w_model wd) with
   | (Raised e, w) => mkRun (Uncaught e) ss w out []
   | (EarlyReturn, w) => mkRun Return ss w out []
   | (LoadModel modelo_path, w) =>
       match YOLO_load (fs w) modelo_path with
       | Err e => mkRun (Uncaught e) ss w out []
       | Ok (model, st) =>
           let out :=
             out ++ [UiSidebarSuccess
                       ("Modelo " ++ w_model wd ++ " cargado correctamente")%string] in
           match main_video w wd with
           | (Err e, w) => mkRun (Uncaught e) ss w out []
           | (Ok video_path, w) =>
               let '(out, tr) := main_process w wd model st video_path out in
               main_logout ss wd w out tr
           end
       end
   end).
Proof.
  intros Hss. unfold main. rewrite Hss. cbv beta iota zeta. rewrite Hss.
  reflexivity.
Qed.

(** X10. Without a logged-in session [main] does nothing but the login
    form, whatever the widgets return and even when the credentials are
    right: it downloads nothing, changes no file, opens no video, shows no
    image, and returns. *)
Theorem main_requires_login ss wd w :
  ss !! "logged_in" <> Some true ->
  let r := main YOLO_load ss wd w in
  exit r = Return /\ world r = w /\ events r = [] /\ images_shown (shown r) = [].
Proof.
  intros Hlocked. cbv zeta. rewrite main_locked by exact Hlocked. cbv zeta.
  destruct (w_login wd); [destruct (authenticate _ _)|]; repeat split.
Qed.

(** X11. The login form: the session becomes logged in exactly when the
    button was pressed and [authenticate] accepts the credentials; a pressed
    button with rejected credentials shows the error and leaves the session
    logged out; no other key of the session state is touched. *)
Theorem main_login ss wd w :
  ss !! "logged_in" <> Some true ->
  let r := main YOLO_load ss wd w in
  (session r !! "logged_in" = Some true <->
   w_login wd = true /\ authenticate (w_username wd) (w_password wd) = true) /\
  (session r !! "logged_in" = Some false <->
   ~ (w_login wd = true /\ authenticate (w_username wd) (w_password wd) = true)) /\
  (In (UiError "Credenciales incorrectas") (shown r) <->
   w_login wd = true /\ authenticate (w_username wd) (w_password wd) = false) /\
  (forall key, key <> "logged_in" -> session r !! key = ss !! key).
Proof.
  intros Hlocked. cbv zeta. rewrite main_locked by exact Hlocked. cbv zeta.
  assert (Hss0 : match ss !! "logged_in" with
                 | None => <["logged_in" := false]> ss
                 | Some _ => ss
                 end !! "logged_in" = Some false).
  { destruct (ss !! "logged_in") as [[|]|] eqn:Hss; [congruence|exact Hss|].
    apply lookup_insert_eq. }
  assert (Hother : forall key, key <> "logged_in" ->
            match ss !! "logged_in" with
            | None => <["logged_in" := false]> ss
            | Some _ => ss
            end !! key = ss !! key).
  { intros key Hkey. destruct (ss !! "logged_in"); [reflexivity|].
    apply lookup_insert_ne. congruence. }
  destruct (w_login wd); [destruct (authenticate _ _)|]; cbn [session shown].
  - rewrite lookup_insert_eq. split; [tauto|]. split; [|split].
    + split; [discriminate|]. tauto.
    + simpl. split; [|intros [_ [=]]]. intros [[=]|[[=]|[[=]|[]]]].
    + intros key Hkey. rewrite lookup_insert_ne by congruence. auto.
  - rewrite Hss0. split; [|split; [|split]]; auto.
    + split; [discriminate|]. intros [_ [=]].
    + split; auto. intros _ [_ [=]].
    + simpl. split; auto.
  - rewrite Hss0. split; [|split; [|split]]; auto.
    + split; [discriminate|]. intros [[=] _].
    + split; auto. intros _ [[=] _].
    + simpl. split; [|intros [[=] _]]. intros [[=]|[[=]|[]]].
Qed.

Lemma main_model_step_loads w modelo_seleccionado :
  fst (main_model_step w modelo_seleccionado) <> EarlyReturn.
Proof.
  unfold main_model_step.
  destruct (dict_get MODELOS_HF modelo_seleccionado) as [file|e]; [|discriminate].
  pose proof (descargar_returned w HF_REPO_ID file (os_path_join "models" file)) as Hret.
  destruct (descargar_archivo_hf w HF_REPO_ID file (os_path_join "models" file))
    as [[p|e] w1]; [|discriminate].
  destruct (Hret p eq_refl) as [-> _].
  destruct (os_path_join "models" file) eqn:Hjoin; [|discriminate].
  exfalso. exact (os_path_join_models file Hjoin).
Qed.

(** Both sources give a path, never [None]. *)
Lemma main_video_path w wd video_path :
  fst (main_video w wd) = Ok video_path -> exists path, video_path = Some path.
Proof.
  unfold main_video. destruct (String.eqb (w_source wd) "Video de Carpeta").
  - destruct (dict_get VIDEOS_HF (w_video wd)) as [file|e]; [|discriminate].
    destruct (descargar_archivo_hf w HF_REPO_ID file (os_path_join "videos" file))
      as [[p|e] w1]; [|discriminate].
    intros [= <-]. eauto.
  - destruct (w_upload wd) as [name|]; [|discriminate]. intros [= <-]. eauto.
Qed.

Lemma images_shown_app us1 us2 :
  images_shown (us1 ++ us2) = images_shown us1 ++ images_shown us2.
Proof. unfold images_shown. apply flat_map_app. Qed.

Lemma images_shown_map frames : images_shown (map UiImageRGB frames) = frames.
Proof.
  induction frames as [|frame frames IH]; [reflexivity|].
  simpl. rewrite IH. reflexivity.
Qed.


(** What pressing "Procesar Video" shows, given the path of the video. *)
Lemma main_process_some w wd (model : YOLO MState) (st : MState) path out :
  main_process w wd model st (Some path) out =
  if w_process wd then
    match process_video_default (fs w) path (PyYOLO model) st with
    | (Ok processed_frames, _, tr) =>
        (out ++ [UiHeader ("Frames Procesados - " ++ w_model wd)%string]
             ++ map UiImageRGB processed_frames, tr)
    | (Err e, _, tr) => (out ++ [UiProcessError e], tr)
    end
  else (out, []).
Proof. reflexivity. Qed.

(** Splits a run of [main] for a logged-in session into its cases, leaving
    the one that reaches the two buttons. *)
Ltac page_cases ss wd w Hss :=
  rewrite (main_unlocked ss wd w Hss); cbv zeta;
  let Hstep := fresh "Hstep" in
  pose proof (main_model_step_loads w (w_model wd)) as Hstep;
  destruct (main_model_step w (w_model wd)) as [[modelo_path| |e] w1];
  [|exfalso; apply Hstep; reflexivity|];
  [destruct (YOLO_load (fs w1) modelo_path) as [[model st]|e];
   [let Hpath := fresh "Hpath" in
    pose proof (main_video_path w1 wd) as Hpath;
    destruct (main_video w1 wd) as [[video_path|e] w2];
    [destruct (Hpath video_path eq_refl) as [path ->]; clear Hpath;
     rewrite main_process_some|]|]|];
  clear Hstep.

(** X12. Choosing the upload source without giving a file makes [main]
    fail: once the model is loaded, line 133 reads the [name] of [None] and
    the [AttributeError] leaves [main] before any video is processed. *)
Theorem main_upload_without_file ss wd w :
  ss !! "logged_in" = Some true ->
  w_source wd <> "Video de Carpeta" ->
  w_upload wd = None ->
  let r := main YOLO_load ss wd w in
  (exists e, exit r = Uncaught e) /\
  events r = [] /\ images_shown (shown r) = [] /\
  (forall modelo_path model st,
     fst (main_model_step w (w_model wd)) = LoadModel modelo_path ->
     YOLO_load (fs (snd (main_model_step w (w_model wd)))) modelo_path = Ok (model, st) ->
     exit r = Uncaught (AttributeError "'NoneType' object has no attribute 'name'")).
Proof.
  intros Hss Hsource Hupload. cbv zeta.
  rewrite (main_unlocked ss wd w Hss). cbv zeta.
  pose proof (main_model_step_loads w (w_model wd)) as Hstep.
  destruct (main_model_step w (w_model wd)) as [[modelo_path| |e] w1];
    [|exfalso; apply Hstep; reflexivity|];
    [|repeat split; eauto; intros ? ? ? [=]].
  cbn [fst snd].
  destruct (YOLO_load (fs w1) modelo_path) as [[model st]|e] eqn:Hload;
    [|repeat split; eauto; intros ? ? ? [= <-] H; congruence].
  unfold main_video. rewrite Hupload.
  destruct (String.eqb_spec (w_source wd) "Video de Carpeta"); [contradiction|].
  repeat split; eauto.
Qed.

(** X13. The warning "Por favor, selecciona un video" is never shown: the
    path tested at line 136 is never [None], since the fetcher returns a
    path and the upload branch either has a name or has already failed. *)
Theorem main_never_warns ss wd w text :
  ~ In (UiWarning text) (shown (main YOLO_load ss wd w)).
Proof.
  destruct (decide (ss !! "logged_in" = Some true)) as [Hss|Hss].
  - page_cases ss wd w Hss.
    + destruct (w_process wd).
      * destruct (process_video_default (fs w2) path (PyYOLO model) st)
          as [[[frames|e] st'] tr]; unfold main_logout;
          destruct (w_logout wd); cbn [shown];
          rewrite ?in_app_iff, ?in_map_iff; simpl;
          intros H; decompose [or ex and] H; congruence.
      * unfold main_logout; destruct (w_logout wd); simpl;
          intros H; decompose [or] H; congruence.
    + simpl. intros H; decompose [or] H; congruence.
    + simpl. intros H; decompose [or] H; congruence.
    + simpl. intros H; decompose [or] H; congruence.
  - rewrite main_locked by exact Hss. cbv zeta.
    destruct (w_login wd); [destruct (authenticate _ _)|]; simpl;
      intros H; decompose [or] H; congruence.
Qed.


(** X15. For a logged-in session, how a run of [main] ends and what it
    leaves in the session: a rerun with the session logged out when the
    logout button was pressed, a plain return with the session unchanged
    when it was not, and the session unchanged when an exception left
    [main] (the logout button is then not even reached). The early return
    of line 124 never happens. *)
Theorem main_logout_ends_session ss wd w :
  ss !! "logged_in" = Some true ->
  let r := main YOLO_load ss wd w in
  match exit r with
  | Rerun => w_logout wd = true /\ session r = <["logged_in" := false]> ss
  | Return => w_logout wd = false /\ session r = ss
  | Uncaught _ => session r = ss
  end.
Proof.
  intros Hss. cbv zeta. page_cases ss wd w Hss; try reflexivity.
  destruct (if w_process wd
            then match process_video_default (fs w2) path (PyYOLO model) st with
                 | (Ok processed_frames, _, tr) =>
                     (([UiTitle "🏀 Basketball YOLO Detection";
                        UiSidebarHeader "Configuración de Detección"] ++
                       [UiSidebarSuccess
                          ("Modelo " ++ w_model wd ++ " cargado correctamente")%string])
                        ++ [UiHeader ("Frames Procesados - " ++ w_model wd)%string]
                        ++ map UiImageRGB processed_frames, tr)
                 | (Err e, _, tr) =>
                     (([UiTitle "🏀 Basketball YOLO Detection";
                        UiSidebarHeader "Configuración de Detección"] ++
                       [UiSidebarSuccess
                          ("Modelo " ++ w_model wd ++ " cargado correctamente")%string])
                        ++ [UiProcessError e], tr)
                 end
            else ([UiTitle "🏀 Basketball YOLO Detection";
                   UiSidebarHeader "Configuración de Detección"] ++
                  [UiSidebarSuccess
                     ("Modelo " ++ w_model wd ++ " cargado correctamente")%string], []))
    as [out tr].
  unfold main_logout. destruct (w_logout wd); split; reflexivity.
Qed.

(** X16. No run of [main] shows more than 100 images, and every image it
    shows is 640x360, whatever the model and the video. *)
Theorem main_shows_at_most_100_images ss wd w :
  let r := main YOLO_load ss wd w in
  (length (images_shown (shown r)) <= 100)%nat /\
  Forall (fun frame => shape frame = (640, 360)) (images_shown (shown r)).
Proof.
  cbv zeta. destruct (decide (ss !! "logged_in" = Some true)) as [Hss|Hss].
  - page_cases ss wd w Hss; try (split; [simpl; lia|constructor]).
    destruct (w_process wd).
    + unfold process_video_default.
      destruct (process_video (fs w2) path (PyYOLO model) 100 st)
        as [[[frames|e] st'] tr] eqn:Hrun;
        unfold main_logout; destruct (w_logout wd); cbn [shown];
        rewrite ?images_shown_app, ?images_shown_map;
        try (split; [simpl; lia|constructor]).
      * apply process_video_returns in Hrun as [Hlen Hall].
        apply pipeline_run_returns in Hall as (_ & _ & _ & Hshape).
        simpl. split; [lia|exact Hshape].
      * apply process_video_returns in Hrun as [Hlen Hall].
        apply pipeline_run_returns in Hall as (_ & _ & _ & Hshape).
        simpl. split; [lia|exact Hshape].
    + unfold main_logout; destruct (w_logout wd); split; simpl; try lia; constructor.
  - rewrite main_locked by exact Hss. cbv zeta.
    destruct (w_login wd); [destruct (authenticate _ _)|];
      split; simpl; try lia; constructor.
Qed.

(** X17. An uploaded video is not saved: [main] hands only its name to
    [process_video]. When no video file of that name is on disk the capture
    does not open or reads nothing, and the run shows the header of the
    processed frames with no image under it and no error. *)
Theorem main_uploaded_name_not_on_disk ss wd w modelo_path model st name :
  ss !! "logged_in" = Some true ->
  fst (main_model_step w (w_model wd)) = LoadModel modelo_path ->
  YOLO_load (fs (snd (main_model_step w (w_model wd)))) modelo_path = Ok (model, st) ->
  w_source wd <> "Video de Carpeta" ->
  w_upload wd = Some name ->
  decodable (fs (snd (main_model_step w (w_model wd)))) name = [] ->
  w_process wd = true ->
  let r := main YOLO_load ss wd w in
  shown r = [ UiTitle "🏀 Basketball YOLO Detection";
              UiSidebarHeader "Configuración de Detección";
              UiSidebarSuccess ("Modelo " ++ w_model wd ++ " cargado correctamente")%string;
              UiHeader ("Frames Procesados - " ++ w_model wd)%string ] /\
  exit r = (if w_logout wd then Rerun else Return) /\
  world r = snd (main_model_step w (w_model wd)).
Proof.
  intros Hss Hstep Hload Hsource Hupload Hnone Hprocess. cbv zeta.
  rewrite (main_unlocked ss wd w Hss). cbv zeta.
  destruct (main_model_step w (w_model wd)) as [step w1]. cbn [fst snd] in *.
  subst step. rewrite Hload. unfold main_video. rewrite Hupload.
  destruct (String.eqb_spec (w_source wd) "Video de Carpeta"); [contradiction|].
  rewrite main_process_some, Hprocess.
  unfold process_video_default. rewrite process_video_unfold. cbv zeta.
  unfold decodable in Hnone. rewrite Hnone.
  destruct (opened (cv2_VideoCapture (fs w1) name) && (0 <? 100)) eqn:Hc.
  - rewrite frame_loop_eof by exact Hc.
    unfold main_logout. destruct (w_logout wd); repeat split.
  - rewrite frame_loop_done by exact Hc.
    unfold main_logout. destruct (w_logout wd); repeat split.
Qed.

Lemma main_model_step_downloads w modelo_seleccionado :
  (length (downloads (snd (main_model_step w modelo_seleccionado)))
   <= S (length (downloads w)))%nat.
Proof.
  unfold main_model_step.
  destruct (dict_get MODELOS_HF modelo_seleccionado) as [file|e]; [|simpl; lia].
  pose proof (descargar_downloads w HF_REPO_ID file (os_path_join "models" file)) as Hd.
  destruct (descargar_archivo_hf w HF_REPO_ID file (os_path_join "models" file))
    as [[p|e] w1]; cbn [snd] in *.
  - assert (length (downloads w1) <= S (length (downloads w)))%nat.
    { rewrite Hd, length_app. destruct (os_path_exists w _); [simpl; lia|].
      destruct (hub w !! _); simpl; lia. }
    destruct (truthy p); exact H.
  - rewrite Hd, length_app. destruct (os_path_exists w _); [simpl; lia|].
    destruct (hub w !! _); simpl; lia.
Qed.

Lemma main_video_downloads w wd :
  (length (downloads (snd (main_video w wd))) <= S (length (downloads w)))%nat.
Proof.
  unfold main_video. destruct (String.eqb (w_source wd) "Video de Carpeta").
  - destruct (dict_get VIDEOS_HF (w_video wd)) as [file|e]; [|simpl; lia].
    pose proof (descargar_downloads w HF_REPO_ID file (os_path_join "videos" file)) as Hd.
    destruct (descargar_archivo_hf w HF_REPO_ID file (os_path_join "videos" file))
      as [[p|e] w1]; cbn [snd] in *;
      rewrite Hd, length_app; (destruct (os_path_exists w _); [simpl; lia|]);
      destruct (hub w !! _); simpl; lia.
  - destruct (w_upload wd); simpl; lia.
Qed.

(** X18. One run of [main] downloads at most two artifacts, the selected
    model and the selected video, however it ends; a run for a session that
    is not logged in downloads none. *)
Theorem main_downloads_at_most_two ss wd w :
  let r := main YOLO_load ss wd w in
  (length (downloads (world r)) <= 2 + length (downloads w))%nat /\
  (ss !! "logged_in" <> Some true -> downloads (world r) = downloads w).
Proof.
  cbv zeta. destruct (decide (ss !! "logged_in" = Some true)) as [Hss|Hss].
  - split; [|congruence].
    rewrite (main_unlocked ss wd w Hss). cbv zeta.
    pose proof (main_model_step_downloads w (w_model wd)) as H1.
    destruct (main_model_step w (w_model wd)) as [[modelo_path| |e] w1];
      cbn [snd world] in *; try lia.
    destruct (YOLO_load (fs w1) modelo_path) as [[model st]|e]; cbn [world]; [|lia].
    pose proof (main_video_downloads w1 wd) as H2.
    destruct (main_video w1 wd) as [[video_path|e] w2]; cbn [snd world] in *; [|lia].
    destruct (main_process w2 wd model st video_path _) as [out tr].
    unfold main_logout. destruct (w_logout wd); cbn [world]; lia.
  - rewrite main_locked by exact Hss. cbv zeta.
    destruct (w_login wd); [destruct (authenticate _ _)|]; cbn [world];
      split; auto; lia.
Qed.

End PageFacts.

(** ** The stored secret *)

Lemma string_length_append s1 s2 :
  String.length (s1 ++ s2)%string = (String.length s1 + String.length s2)%nat.
Proof. induction s1 as [|c s1 IH]; simpl; [reflexivity|]. rewrite IH. reflexivity. Qed.

Lemma string_forall_append p s1 s2 :
  string_forall p (s1 ++ s2)%string = string_forall p s1 && string_forall p s2.
Proof.
  induction s1 as [|c s1 IH]; simpl; [reflexivity|].
  rewrite IH, andb_assoc. reflexivity.
Qed.

Lemma hex_digit_lower d : 0 <= d < 16 -> is_lower_hex (Sha256.hex_digit d) = true.
Proof.
  intros Hd.
  assert (Hcases : d = 0 \/ d = 1 \/ d = 2 \/ d = 3 \/ d = 4 \/ d = 5 \/ d = 6 \/ d = 7 \/
                   d = 8 \/ d = 9 \/ d = 10 \/ d = 11 \/ d = 12 \/ d = 13 \/ d = 14 \/
                   d = 15) by lia.
  repeat (destruct Hcases as [->|Hcases]; [reflexivity|]). subst d. reflexivity.
Qed.

Lemma hex_word_format n x :
  String.length (Sha256.hex_word n x) = n /\
  string_forall is_lower_hex (Sha256.hex_word n x) = true.
Proof.
  induction n as [|n [IHl IHh]]; [split; reflexivity|].
  cbn [Sha256.hex_word String.length string_forall]. rewrite IHl, IHh.
  split; [reflexivity|]. rewrite andb_true_r. apply hex_digit_lower.
  change 15 with (Z.ones 4). rewrite Z.land_ones by lia.
  apply Z.mod_pos_bound. lia.
Qed.

Lemma compress_length h block : length (Sha256.compress h block) = Nat.min (length h) 8.
Proof. unfold Sha256.compress. rewrite length_map, length_combine. reflexivity. Qed.

Lemma blocks_length n : forall ws h,
  length h = 8%nat -> length (Sha256.blocks n ws h) = 8%nat.
Proof.
  induction n as [|n IH]; intros ws h Hh; [exact Hh|].
  simpl. apply IH. rewrite compress_length, Hh. reflexivity.
Qed.

Lemma hex_words_format ws :
  String.length (fold_right (fun w acc => (Sha256.hex_word 8 w ++ acc)%string)
                            EmptyString ws) = (8 * length ws)%nat /\
  string_forall is_lower_hex
    (fold_right (fun w acc => (Sha256.hex_word 8 w ++ acc)%string) EmptyString ws) = true.
Proof.
  induction ws as [|w ws [IHl IHh]]; [split; reflexivity|].
  cbn [fold_right length]. rewrite string_length_append, string_forall_append, IHl, IHh.
  destruct (hex_word_format 8 w) as [-> ->]. split; [lia|reflexivity].
Qed.

(** X19. Whatever the password, even the empty one, [hash_password]
    returns a string of exactly 64 lower-case hexadecimal digits: this is
    the form of the secret kept in [USERS] and of what [authenticate]
    compares it with. *)
Theorem hash_password_format password :
  String.length (hash_password password) = 64%nat /\
  string_forall is_lower_hex (hash_password password) = true.
Proof.
  unfold hash_password, Sha256.hexdigest.
  destruct (hex_words_format (Sha256.digest_words (str_encode password))) as [Hl Hh].
  rewrite Hl, Hh. split; [|reflexivity].
  unfold Sha256.digest_words. rewrite blocks_length; reflexivity.
Qed.

(** ** The further properties on concrete inputs *)

Lemma process_video_smaller_cap_witness :
  2 <= 3 /\
  exists out2 st1 tr1,
    fst (fst (process_video Demo.files Demo.video (PyYOLO Demo.yolov5) 3 0%nat)) = Ok out2 /\
    process_video Demo.files Demo.video (PyYOLO Demo.yolov5) 2 0%nat
    = (Ok (firstn 2 out2), st1, tr1).
Proof.
  split; [lia|].
  destruct (process_video Demo.files Demo.video (PyYOLO Demo.yolov5) 3 0%nat)
    as [[[out2|e] st2] tr2] eqn:Hrun; [|vm_compute in Hrun; discriminate].
  destruct (process_video_smaller_cap Demo.files Demo.video (PyYOLO Demo.yolov5) 2 3
              0%nat out2 st2 tr2 ltac:(lia) Hrun) as (st1 & tr1 & Hsmall).
  exists out2, st1, tr1. split; [reflexivity|exact Hsmall].
Defined.

Lemma process_video_raises_witness :
  let run := process_video Demo.files Demo.video (PyYOLO Demo.flaky) 100 0%nat in
  run = (Err (InferenceError "size mismatch"), snd (fst run), snd run) /\
  exists st0 raw outcome,
    In raw (decodable Demo.files Demo.video) /\
    last (snd run) = Some (EvInfer (cv2_resize raw (640, 360)) (3 # 10) outcome) /\
    predict Demo.flaky st0 (cv2_resize raw (640, 360)) (3 # 10)
    = (outcome, snd (fst run)) /\
    caused_by Demo.flaky outcome (InferenceError "size mismatch").
Proof.
  intros run. split; [reflexivity|].
  destruct (process_video_raises Demo.files Demo.video Demo.flaky 100 0%nat
              (InferenceError "size mismatch") (snd (fst run)) (snd run) eq_refl)
    as (st0 & raw & outcome & Hin & Hlast & Hcall & Hcause).
  exists st0, raw, outcome. repeat split; try assumption.
  destruct Hcause as [Hmodel|(results & pre & box & post & Ho & Hd & Hpre & Hbox & _)];
    [left; exact Hmodel|right; eauto 10].
Defined.

(** Boxes that cannot be drawn: a left edge one past the largest C integer
    is refused by [cv2.rectangle], corners that are not numbers by [int];
    the first frame raises and the capture is not released. *)
Example process_video_undrawable_boxes :
  let wide := process_video Demo.files Demo.video (PyYOLO (Demo.stub_of Demo.wide)) 100 0%nat in
  let blank := process_video Demo.files Demo.video (PyYOLO (Demo.stub_of Demo.blank)) 100 0%nat in
  fst (fst wide) = Err (Cv2Error "rectangle") /\
  count is_infer (snd wide) = 1%nat /\ count is_release (snd wide) = 0%nat /\
  fst (fst blank) = Err (ValueError "cannot convert float NaN to integer") /\
  count is_infer (snd blank) = 1%nat /\ count is_release (snd blank) = 0%nat.
Proof. vm_compute. repeat split; reflexivity. Qed.

(** A box of class 7 where [names] knows class 0 only: the first frame
    raises [KeyError: 7], after the ball before it was drawn and lost. *)
Example process_video_unknown_class :
  let run := process_video Demo.files Demo.video (PyYOLO DemoPage.unnamed) 100 0%nat in
  fst (fst run) = Err (KeyError (inl 7)) /\ count is_infer (snd run) = 1%nat.
Proof. vm_compute. split; reflexivity. Qed.

Lemma process_video_overlays_per_detection_witness :
  Forall (fun raw => overlay raw = []) (decodable Demo.files Demo.video) /\
  exists out st' tr,
    process_video Demo.files Demo.video (PyYOLO Demo.yolov5) 2 0%nat = (Ok out, st', tr) /\
    Forall2 (fun call img =>
               exists results,
                 snd call = Ok results /\
                 detection_count img = length (detections results) /\
                 length (overlay img) = (2 * length (detections results))%nat)
            (inferences tr) out.
Proof.
  assert (Hraw : Forall (fun raw => overlay raw = []) (decodable Demo.files Demo.video))
    by (repeat constructor).
  split; [exact Hraw|].
  destruct (process_video Demo.files Demo.video (PyYOLO Demo.yolov5) 2 0%nat)
    as [[[out|e] st'] tr] eqn:Hrun; [|vm_compute in Hrun; discriminate].
  exists out, st', tr. split; [reflexivity|].
  exact (process_video_overlays_per_detection Demo.files Demo.video Demo.yolov5 2 0%nat
           out st' tr Hraw Hrun).
Defined.

Lemma logged_out_locked : DemoPage.logged_out !! "logged_in" <> Some true.
Proof. unfold DemoPage.logged_out. rewrite lookup_empty. discriminate. Qed.

Lemma logged_in_unlocked : DemoPage.logged_in !! "logged_in" = Some true.
Proof. apply lookup_singleton_eq. Qed.

Lemma main_requires_login_witness :
  let r := main DemoPage.YOLO_load DemoPage.logged_out DemoPage.login_click Demo.os0 in
  DemoPage.logged_out !! "logged_in" <> Some true /\
  exit r = Return /\ world r = Demo.os0 /\ events r = [] /\ images_shown (shown r) = [].
Proof.
  intros r. split; [exact logged_out_locked|].
  exact (main_requires_login DemoPage.YOLO_load DemoPage.logged_out DemoPage.login_click
           Demo.os0 logged_out_locked).
Defined.

Lemma main_login_witness :
  let r := main DemoPage.YOLO_load DemoPage.logged_out DemoPage.login_click Demo.os0 in
  DemoPage.logged_out !! "logged_in" <> Some true /\
  session r !! "logged_in" = Some true.
Proof.
  intros r. split; [exact logged_out_locked|].
  pose proof (main_login DemoPage.YOLO_load DemoPage.logged_out DemoPage.login_click
                Demo.os0 logged_out_locked) as Hlogin.
  cbv zeta in Hlogin. destruct Hlogin as [Hiff _]. apply Hiff.
  split; [reflexivity|vm_compute; reflexivity].
Defined.

Lemma main_upload_without_file_witness :
  let r := main DemoPage.YOLO_load DemoPage.logged_in DemoPage.upload_nothing Demo.os0 in
  DemoPage.logged_in !! "logged_in" = Some true /\
  w_source DemoPage.upload_nothing <> "Video de Carpeta" /\
  w_upload DemoPage.upload_nothing = None /\
  exit r = Uncaught (AttributeError "'NoneType' object has no attribute 'name'") /\
  events r = [].
Proof.
  intros r.
  assert (Hsource : w_source DemoPage.upload_nothing <> "Video de Carpeta") by discriminate.
  destruct (main_upload_without_file DemoPage.YOLO_load DemoPage.logged_in
              DemoPage.upload_nothing Demo.os0 logged_in_unlocked Hsource eq_refl)
    as (_ & Hevents & _ & Hexit).
  split; [exact logged_in_unlocked|]. split; [exact Hsource|]. split; [reflexivity|].
  split; [|exact Hevents].
  apply (Hexit "models/best_YOLOv5n6u.pt" (Demo.stub "models/best_YOLOv5n6u.pt") 0%nat);
    vm_compute; reflexivity.
Defined.

Lemma main_logout_ends_session_witness :
  let r := main DemoPage.YOLO_load DemoPage.logged_in DemoPage.logout_click Demo.os0 in
  DemoPage.logged_in !! "logged_in" = Some true /\
  exit r = Rerun /\ session r !! "logged_in" = Some false.
Proof.
  intros r. split; [exact logged_in_unlocked|].
  pose proof (main_logout_ends_session DemoPage.YOLO_load DemoPage.logged_in
                DemoPage.logout_click Demo.os0 logged_in_unlocked) as Hend.
  cbv zeta in Hend. fold r in Hend.
  assert (Hexit : exit r = Rerun) by (vm_compute; reflexivity).
  rewrite Hexit in Hend. destruct Hend as [_ Hsession].
  split; [exact Hexit|]. rewrite Hsession. apply lookup_insert_eq.
Defined.

Lemma main_uploaded_name_not_on_disk_witness :
  let r := main DemoPage.YOLO_load DemoPage.logged_in DemoPage.upload_click Demo.os0 in
  DemoPage.logged_in !! "logged_in" = Some true /\
  decodable (fs (snd (main_model_step Demo.os0 "YOLOv5n6u"))) "partido.mp4" = [] /\
  images_shown (shown r) = [] /\ exit r = Return.
Proof.
  intros r.
  assert (Hnone : decodable (fs (snd (main_model_step Demo.os0 "YOLOv5n6u")))
                            "partido.mp4" = []) by (vm_compute; reflexivity).
  assert (Hsource : w_source DemoPage.upload_click <> "Video de Carpeta") by discriminate.
  destruct (main_uploaded_name_not_on_disk DemoPage.YOLO_load DemoPage.logged_in
              DemoPage.upload_click Demo.os0 "models/best_YOLOv5n6u.pt"
              (Demo.stub "models/best_YOLOv5n6u.pt") 0%nat "partido.mp4"
              logged_in_unlocked ltac:(vm_compute; reflexivity)
              ltac:(vm_compute; reflexivity) Hsource eq_refl Hnone eq_refl)
    as (Hshown & Hexit & _).
  split; [exact logged_in_unlocked|]. split; [exact Hnone|].
  fold r in Hshown, Hexit. rewrite Hshown. split; [reflexivity|exact Hexit].
Defined.


(** A whole run: logged in, the first video of the folder, YOLOv5n6u. The
    model is fetched, the video is already there, three images are shown. *)
Example main_processes_folder_video :
  let r := main DemoPage.YOLO_load DemoPage.logged_in DemoPage.process_click Demo.os0 in
  exit r = Return /\
  downloads (world r) = [(HF_REPO_ID, "best_YOLOv5n6u.pt")] /\
  map picture (images_shown (shown r)) = [0%N; 1%N; 2%N] /\
  count is_open (events r) = 1%nat /\ count is_release (events r) = 1%nat.
Proof. vm_compute. repeat split; reflexivity. Qed.
